(** * pyqode.core._internal.client: the JSON/TCP client and its server process

    A shallow embedding of [src/pyqode/core/_internal/client.py]: the
    [ServerProcess] wrapper around the worker subprocess and the
    [JsonTcpClient] socket (frame decoder, pending-callback table,
    connect/retry logic, start and close).

    Python objects are modelled by their values, the Qt objects by the
    part of their state the module reads (the socket's read buffer, the
    process' output channels, the single-shot timer queue) and by a trace
    of the calls made on them.

    What is taken from the libraries underneath:
    - [json], UTF-8 and the byte order are parameters (class [Runtime]);
    - [QIODevice.read(n)] on the buffered socket returns at most [n] of
      the bytes available, and PyQt raises [ValueError] for a negative
      [n];
    - an exception that leaves a slot is printed by PyQt4 and the event
      loop goes on;
    - a callback handed to [request_work] returns when it is called;
    - a payload [json.loads] refuses is refused with [ValueError]: the
      [RecursionError] Python raises for a payload nested too deeply is
      not told apart from it;
    - the signals Qt emits from inside a call ([disconnected] inside
      [QTcpSocket.close], [finished] inside [waitForFinished]) are not
      delivered inside it.  The slots of this module they would run add
      log records and set [is_connected] and [running] to [False]; what
      is said about [close] on a connected socket or a running process
      is therefore said of the calls it makes ([actions]) and of the
      attributes it leaves, not of the log. *)

From Stdlib Require Import ZArith List Lia Strings.Byte Ascii String.
From stdpp Require Import base option list gmap pretty.
Import ListNotations.
Open Scope Z_scope.

(** ** Python values *)

(** [bytes] objects. *)
Definition bytes := list byte.

(** [str] objects: sequences of Unicode code points. *)
Definition text := list N.

(** An ASCII literal as a [str]. *)
Definition T (s : string) : text :=
  map (fun b => Byte.to_N b) (list_byte_of_string s).

(** The same literal as [bytes]. *)
Definition B (s : string) : bytes := list_byte_of_string s.

(** What [json.loads] returns: [None], [bool], [int], [float] (kept by its
    literal), [str], [list] and [dict] with [str] keys. *)
#[local] Unset Elimination Schemes.
Inductive json :=
| JNull
| JBool (b : bool)
| JInt (n : Z)
| JFloat (lit : text)
| JStr (s : text)
| JList (xs : list json)
| JDict (kvs : list (text * json)).
#[local] Set Elimination Schemes.

(** A Python callable handed in as [on_receive], known by its identity. *)
Definition callable := N.

(** The exceptions the module can meet. *)
Inductive exn :=
| ValueError
| UnicodeDecodeError
| UnicodeEncodeError
| TypeError
| KeyError
| RuntimeError
| AssertionError
| NotConnectedError
| AttributeError
| StructError.

#[global] Instance exn_eq_dec : EqDecision exn.
Proof. solve_decision. Defined.

(** ** The runtime the module runs on

    The standard-library functions the module calls are parameters of the
    model: every theorem below holds for any implementation of them. *)

Inductive endianness := LittleEndian | BigEndian.

Class Runtime := {
    (** [sys.byteorder], which [struct]'s ['='] prefix follows. *)
    byteorder : endianness;
    (** [b.decode('utf-8')]; [None] is [UnicodeDecodeError]. *)
    utf8_decode : bytes -> option text;
    (** [s.encode('utf-8')]; [None] is [UnicodeEncodeError]. *)
    utf8_encode : text -> option bytes;
    (** [json.loads]; [None] is [ValueError] (and stands for any other
        exception of the parser, such as [RecursionError]). *)
    json_loads : text -> option json;
    (** [json.dumps]; [None] is [TypeError]. *)
    json_dumps : json -> option text;
    (** [os.path.exists]. *)
    path_exists : text -> bool;
    (** [sys.executable]. *)
    sys_executable : text;
  }.

(** ** struct.pack / struct.unpack with format ['=I'] *)

(** [int.from_bytes(bs, 'little')]. *)
Fixpoint from_little (bs : bytes) : Z :=
  match bs with
  | [] => 0
  | b :: rest => Z.of_N (Byte.to_N b) + 256 * from_little rest
  end.

(** The [n] low bytes of [v], least significant first. *)
Fixpoint to_little (n : nat) (v : Z) : bytes :=
  match n with
  | O => []
  | S n' =>
      match Byte.of_N (Z.to_N (v mod 256)) with
      | Some b => b :: to_little n' (v / 256)
      | None => []
      end
  end.

Definition in_order (o : endianness) (bs : bytes) : bytes :=
  match o with
  | LittleEndian => bs
  | BigEndian => rev bs
  end.

(** [struct.unpack('=I', buf)[0]]: [struct.error] unless [buf] has four
    bytes. *)
Definition unpack_I `{Runtime} (buf : bytes) : option Z :=
  if decide (length buf = 4%nat)
  then Some (from_little (in_order byteorder buf))
  else None.

(** [struct.pack('=I', v)]: [struct.error] unless [0 <= v < 2**32]. *)
Definition pack_I `{Runtime} (v : Z) : option bytes :=
  if decide (0 <= v < 2 ^ 32)
  then Some (in_order byteorder (to_little 4 v))
  else None.

(** ** Logging and the calls made on Qt objects *)

Inductive logger := pyqode_server | pyqode_client.

Inductive level := DEBUG | INFO | ERROR.

(** A log record: the format string it comes from and its arguments. *)
Inductive message :=
| MsgLine (l : text)
| MsgServerProcessStarted
| MsgServerProcessFinished (exit_code : Z)
| MsgRunningWithPython
| MsgStartingServerProcess (program : text) (pgm_args : list text)
| MsgSendingRequest (obj : json)
| MsgConnecting (port : Z)
| MsgConnectedToServer
| MsgDisconnectedFromServer
| MsgSocketError (socket_error : Z) (description : string)
| MsgResponseReceived (obj : json).

(** The slots a single-shot timer is aimed at. *)
Inductive slot := slot_connect.

Inductive event :=
| Log (lg : logger) (lv : level) (m : message)
| SocketWrite (data : bytes)
| SocketClose
| ConnectToHost (address : text) (port : Z)
| PickFreePort (free_port : Z)
| NewServerProcess
| ProcessStart (program : text) (pgm_args : list text)
| ProcessTerminate
| ProcessWaitForFinished
| Call (callback : callable) (status results : json)
| TimerFired (msec : Z) (s : slot)
| Traceback (e : exn).

(** ** Object state *)

(** The attributes [ServerProcess.__init__] sets (the loggers are module
    globals and live in the trace). *)
Record server_process := { running : bool }.

(** The attributes [JsonTcpClient.__init__] sets. *)
Record json_tcp_client := {
    _header_complete : bool;
    _header_buf : bytes;
    _to_read : Z;
    _data_buf : bytes;
    _callbacks : gmap text callable;
    is_connected : bool;
    _process : option server_process;
    _connection_attempts : Z;
    _port : Z;
  }.

Definition with_header_complete (v : bool) (c : json_tcp_client) :=
  {| _header_complete := v; _header_buf := _header_buf c;
     _to_read := _to_read c; _data_buf := _data_buf c;
     _callbacks := _callbacks c; is_connected := is_connected c;
     _process := _process c;
     _connection_attempts := _connection_attempts c; _port := _port c |}.

Definition with_header_buf (v : bytes) (c : json_tcp_client) :=
  {| _header_complete := _header_complete c; _header_buf := v;
     _to_read := _to_read c; _data_buf := _data_buf c;
     _callbacks := _callbacks c; is_connected := is_connected c;
     _process := _process c;
     _connection_attempts := _connection_attempts c; _port := _port c |}.

Definition with_to_read (v : Z) (c : json_tcp_client) :=
  {| _header_complete := _header_complete c; _header_buf := _header_buf c;
     _to_read := v; _data_buf := _data_buf c;
     _callbacks := _callbacks c; is_connected := is_connected c;
     _process := _process c;
     _connection_attempts := _connection_attempts c; _port := _port c |}.

Definition with_data_buf (v : bytes) (c : json_tcp_client) :=
  {| _header_complete := _header_complete c; _header_buf := _header_buf c;
     _to_read := _to_read c; _data_buf := v;
     _callbacks := _callbacks c; is_connected := is_connected c;
     _process := _process c;
     _connection_attempts := _connection_attempts c; _port := _port c |}.

Definition with_callbacks (v : gmap text callable) (c : json_tcp_client) :=
  {| _header_complete := _header_complete c; _header_buf := _header_buf c;
     _to_read := _to_read c; _data_buf := _data_buf c;
     _callbacks := v; is_connected := is_connected c;
     _process := _process c;
     _connection_attempts := _connection_attempts c; _port := _port c |}.

Definition with_is_connected (v : bool) (c : json_tcp_client) :=
  {| _header_complete := _header_complete c; _header_buf := _header_buf c;
     _to_read := _to_read c; _data_buf := _data_buf c;
     _callbacks := _callbacks c; is_connected := v;
     _process := _process c;
     _connection_attempts := _connection_attempts c; _port := _port c |}.

Definition with_process (v : option server_process) (c : json_tcp_client) :=
  {| _header_complete := _header_complete c; _header_buf := _header_buf c;
     _to_read := _to_read c; _data_buf := _data_buf c;
     _callbacks := _callbacks c; is_connected := is_connected c;
     _process := v;
     _connection_attempts := _connection_attempts c; _port := _port c |}.

Definition with_connection_attempts (v : Z) (c : json_tcp_client) :=
  {| _header_complete := _header_complete c; _header_buf := _header_buf c;
     _to_read := _to_read c; _data_buf := _data_buf c;
     _callbacks := _callbacks c; is_connected := is_connected c;
     _process := _process c;
     _connection_attempts := v; _port := _port c |}.

Definition with_port (v : Z) (c : json_tcp_client) :=
  {| _header_complete := _header_complete c; _header_buf := _header_buf c;
     _to_read := _to_read c; _data_buf := _data_buf c;
     _callbacks := _callbacks c; is_connected := is_connected c;
     _process := _process c;
     _connection_attempts := _connection_attempts c; _port := v |}.

(** The client together with the Qt state it reads and writes:
    - [socket]: the bytes [QTcpSocket.bytesAvailable] counts and [read]
      returns;
    - [stdout], [stderr]: what [readAllStandardOutput] and
      [readAllStandardError] return;
    - [timers]: the pending [QTimer.singleShot] calls, oldest first;
    - [trace]: the calls made on the outside (log records, socket and
      process calls, callbacks) and what the event loop did (timers
      fired, tracebacks printed), oldest first. *)
Record world := {
    self : json_tcp_client;
    socket : bytes;
    stdout : bytes;
    stderr : bytes;
    timers : list (Z * slot);
    trace : list event;
  }.

Definition with_self (f : json_tcp_client -> json_tcp_client) (w : world) :=
  {| self := f (self w); socket := socket w; stdout := stdout w;
     stderr := stderr w; timers := timers w; trace := trace w |}.

Definition with_socket (v : bytes) (w : world) :=
  {| self := self w; socket := v; stdout := stdout w;
     stderr := stderr w; timers := timers w; trace := trace w |}.

Definition with_stdout (v : bytes) (w : world) :=
  {| self := self w; socket := socket w; stdout := v;
     stderr := stderr w; timers := timers w; trace := trace w |}.

Definition with_stderr (v : bytes) (w : world) :=
  {| self := self w; socket := socket w; stdout := stdout w;
     stderr := v; timers := timers w; trace := trace w |}.

Definition with_timers (v : list (Z * slot)) (w : world) :=
  {| self := self w; socket := socket w; stdout := stdout w;
     stderr := stderr w; timers := v; trace := trace w |}.

Definition with_trace (v : list event) (w : world) :=
  {| self := self w; socket := socket w; stdout := stdout w;
     stderr := stderr w; timers := timers w; trace := v |}.

(** ** Method bodies: state, exceptions and a bounded loop *)

(** A method body either returns, raises, or (for a [while] loop run with
    too little fuel) is cut short.  A raise keeps the state as it was at
    the [raise] statement. *)
Inductive result (A : Type) : Type :=
| Done (a : A) (w : world)
| Raised (e : exn) (w : world)
| OutOfFuel.
Arguments Done {A} a w.
Arguments Raised {A} e w.
Arguments OutOfFuel {A}.

Definition M (A : Type) : Type := world -> result A.

Definition ret {A} (a : A) : M A := fun w => Done a w.

Definition bind {A B} (m : M A) (k : A -> M B) : M B :=
  fun w =>
    match m w with
    | Done a w' => k a w'
    | Raised e w' => Raised e w'
    | OutOfFuel => OutOfFuel
    end.

Definition raise {A} (e : exn) : M A := fun w => Raised e w.

Declare Scope py_scope.
Delimit Scope py_scope with py.
Notation "x <- m ;; k" := (bind m (fun x => k))
  (at level 100, m at next level, right associativity) : py_scope.
Notation "m ;; k" := (bind m (fun _ => k))
  (at level 100, right associativity) : py_scope.
Open Scope py_scope.

(** [try: body / except <caught>: handler / else: orelse]. *)
Definition try_except_else {A B} (body : M A) (caught : exn -> bool)
    (handler : M B) (orelse : A -> M B) : M B :=
  fun w =>
    match body w with
    | Done a w' => orelse a w'
    | Raised e w' => if caught e then handler w' else Raised e w'
    | OutOfFuel => OutOfFuel
    end.

Definition pass : M unit := ret tt.

Definition get : M json_tcp_client := fun w => Done (self w) w.

Definition modify (f : json_tcp_client -> json_tcp_client) : M unit :=
  fun w => Done tt (with_self f w).

Definition emit (e : event) : M unit :=
  fun w => Done tt (with_trace (trace w ++ [e]) w).

Definition log (lg : logger) (lv : level) (m : message) : M unit :=
  emit (Log lg lv m).

(** A library call that raises [e] where the model says [None]. *)
Definition or_raise {A} (e : exn) (o : option A) : M A :=
  match o with
  | Some a => ret a
  | None => raise e
  end.

Fixpoint for_each {A} (xs : list A) (body : A -> M unit) : M unit :=
  match xs with
  | [] => ret tt
  | x :: rest => body x ;; for_each rest body
  end.

(** [while cond: body], unrolled at most [fuel] times. *)
Fixpoint while (fuel : nat) (cond : M bool) (body : M unit) : M unit :=
  c <- cond ;;
  if c : bool then
    match fuel with
    | O => fun _ => OutOfFuel
    | S fuel' => body ;; while fuel' cond body
    end
  else ret tt.

(** ** The [str], [list] and [dict] operations the module uses *)

(** [s.rfind(c)] for a one-character [c]: the highest index of [c] in
    [s], or [-1]. *)
Fixpoint rfind (s : text) (c : N) : Z :=
  match s with
  | [] => -1
  | x :: rest =>
      let r := rfind rest c in
      if 0 <=? r then r + 1 else if N.eqb x c then 0 else -1
  end.

(** [s[:stop]], a negative [stop] counting from the end. *)
Definition slice_to {A} (s : list A) (stop : Z) : list A :=
  if 0 <=? stop then take (Z.to_nat stop) s
  else take (Z.to_nat (Z.max 0 (Z.of_nat (length s) + stop))) s.

Definition LF : N := 10.
Definition CR : N := 13.

(** The line boundaries of [str.splitlines]: LF, VT, FF, CR, FS, GS, RS,
    NEL, LINE SEPARATOR and PARAGRAPH SEPARATOR. *)
Definition is_linebreak (c : N) : bool :=
  bool_decide (c ∈ [10; 11; 12; 13; 28; 29; 30; 133; 8232; 8233]%N).

(** [s.splitlines()] where [cur] is the line read so far: a boundary ends
    the line (CR LF counts once), and what follows the last boundary is a
    line only when it is not empty. *)
Fixpoint splitlines_from (cur : text) (s : text) : list text :=
  match s with
  | [] => match cur with [] => [] | _ => [cur] end
  | c :: rest =>
      if is_linebreak c then
        match rest with
        | c2 :: rest2 =>
            if N.eqb c CR && N.eqb c2 LF
            then cur :: splitlines_from [] rest2
            else cur :: splitlines_from [] rest
        | [] => [cur]
        end
      else splitlines_from (cur ++ [c]) rest
  end.

Definition splitlines (s : text) : list text := splitlines_from [] s.

(** [s.endswith(suffix)]. *)
Definition endswith (s suffix : text) : bool :=
  bool_decide (drop (length s - length suffix)%nat s = suffix).

(** [str(n)] for an [int]. *)
Definition str_int (n : Z) : text := T (pretty n).

(** [d[key]] for a [dict] decoded from JSON. *)
Fixpoint assoc (key : text) (kvs : list (text * json)) : option json :=
  match kvs with
  | [] => None
  | (k, v) :: rest => if decide (k = key) then Some v else assoc key rest
  end.

(** [obj[key]] with a [str] key: only a [dict] can be indexed by a [str]
    ([TypeError] otherwise), and a missing key is a [KeyError]. *)
Definition getitem (obj : json) (key : text) : M json :=
  match obj with
  | JDict kvs => or_raise KeyError (assoc key kvs)
  | _ => raise TypeError
  end.

(** [key in d] for a [dict] whose keys are [str]: a [list] or [dict] key
    is unhashable ([TypeError]); a key that is not a [str] equals none. *)
Definition contains (d : gmap text callable) (key : json) : M bool :=
  match key with
  | JList _ | JDict _ => raise TypeError
  | JStr s => ret (bool_decide (is_Some (d !! s)))
  | _ => ret false
  end.

(** [self._callbacks.pop(key)]. *)
Definition pop_callback (key : json) : M callable :=
  match key with
  | JList _ | JDict _ => raise TypeError
  | JStr s =>
      c <- get ;;
      match _callbacks c !! s with
      | Some callback =>
          modify (with_callbacks (delete s (_callbacks c))) ;;
          ret callback
      | None => raise KeyError
      end
  | _ => raise KeyError
  end.

(** [callback(status, results)]: the callable is foreign code; the call is
    recorded and taken to return. *)
Definition call (callback : callable) (status results : json) : M unit :=
  emit (Call callback status results).

(** ** Qt primitives *)

(** [QIODevice.bytesAvailable] on the socket. *)
Definition bytesAvailable : M Z :=
  fun w => Done (Z.of_nat (length (socket w))) w.

(** [QIODevice.read(maxlen)] on the buffered socket: at most [maxlen] of
    the available bytes; PyQt raises [ValueError] for a negative
    [maxlen]. *)
Definition read (maxlen : Z) : M bytes :=
  fun w =>
    if maxlen <? 0 then Raised ValueError w
    else Done (take (Z.to_nat maxlen) (socket w))
              (with_socket (drop (Z.to_nat maxlen) (socket w)) w).

(** [QIODevice.write]. *)
Definition write (data : bytes) : M unit := emit (SocketWrite data).

(** [QTcpSocket.close]: the call alone; the [disconnected] signal a
    connected socket emits from inside it is not delivered. *)
Definition QTcpSocket_close : M unit := emit SocketClose.

(** [QAbstractSocket.connectToHost]. *)
Definition connectToHost (address : text) (port : Z) : M unit :=
  emit (ConnectToHost address port).

(** [QTimer.singleShot(msec, slot)]. *)
Definition singleShot (msec : Z) (s : slot) : M unit :=
  fun w => Done tt (with_timers (timers w ++ [(msec, s)]) w).

(** [QProcess.readAllStandardOutput] and [readAllStandardError]. *)
Definition readAllStandardOutput : M bytes :=
  fun w => Done (stdout w) (with_stdout [] w).

Definition readAllStandardError : M bytes :=
  fun w => Done (stderr w) (with_stderr [] w).

(** ** Module constants *)

(** [SOCKET_ERROR_STRINGS]. *)
Definition SOCKET_ERROR_STRINGS : list (Z * string) :=
  [ (0, "the connection was refused by the peer (or timed out).");
    (1, "the remote host closed the connection.");
    (2, "the host address was not found.");
    (3, "the socket operation failed because the application lacked the required privileges.");
    (4, "the local system ran out of resources (e.g., too many sockets).");
    (5, "the socket operation timed out.");
    (6, "the datagram was larger than the operating system's limit (which can be as low as 8192 bytes).");
    (7, "an error occurred with the network (e.g., the network cable was accidentally plugged out).");
    (-1, "an unidentified error occurred.") ]%string.

(** [SOCKET_ERROR_STRINGS[code]], [None] when [code] is not a key. *)
Fixpoint lookup_error (code : Z) (table : list (Z * string)) : option string :=
  match table with
  | [] => None
  | (k, v) :: rest => if decide (k = code) then Some v else lookup_error code rest
  end.

(** [PROCESS_ERROR_STRING]. *)
Definition PROCESS_ERROR_STRING : list (Z * string) :=
  [ (0, "the process failed to start. Either the invoked program is missing, or you may have insufficient permissions to invoke the program.");
    (1, "the process crashed some time after starting successfully.");
    (2, "the last waitFor...() function timed out. The state of QProcess is unchanged, and you can try calling waitFor...() again.");
    (4, "an error occurred when attempting to write to the process. For example, the process may not be running, or it may have closed its input channel.");
    (3, "an error occurred when attempting to read from the process. For example, the process may not be running.");
    (5, "an unknown error occurred. This is the default return value of error().") ]%string.

(** Delay before retrying to connect to server, in milliseconds. *)
Definition TIMEOUT_BEFORE_RETRY : Z := 100.

(** Max retry. *)
Definition MAX_RETRY : Z := 100.

(** [QtNetwork.QAbstractSocket.ConnectionRefusedError]. *)
Definition ConnectionRefusedError : Z := 0.

(** ** class ServerProcess

    The methods run on the process object the client holds in
    [self._process]; where there is no such object, there is no slot to
    run. *)
Module ServerProcess.

Definition __init__ : server_process := {| running := false |}.

Definition set_running (v : bool) : M unit :=
  modify (fun c => with_process
                     (match _process c with
                      | Some _ => Some {| running := v |}
                      | None => None
                      end) c).

Definition _on_process_started : M unit :=
  log pyqode_client DEBUG MsgServerProcessStarted ;;
  set_running true.

(** [_on_process_error(error)].  The module defines no attribute
    [_test_not_deleted]: [test_not_deleted] is what evaluating it does,
    [None] when it evaluates and [Some e] when it raises [e].  The record
    logged is the formatted line. *)
Definition _on_process_error (error : Z) (test_not_deleted : option exn) : M unit :=
  c <- get ;;
  match _process c with
  | Some p =>
      if negb (running p) then ret tt
      else
        let error :=
          match lookup_error error PROCESS_ERROR_STRING with
          | Some _ => error
          | None => -1
          end in
        try_except_else
          (match test_not_deleted with
           | Some e => raise e
           | None => ret tt
           end)
          (fun e => bool_decide (e = RuntimeError))
          pass
          (fun _ =>
             description <- or_raise KeyError (lookup_error error PROCESS_ERROR_STRING) ;;
             log pyqode_client DEBUG
                 (MsgLine (T "server process error " ++ str_int error
                           ++ T ": " ++ T description)))
  | None => pass
  end.

Definition _on_process_finished (exit_code : Z) : M unit :=
  log pyqode_client DEBUG (MsgServerProcessFinished exit_code) ;;
  set_running false.

Definition _on_process_stdout_ready `{Runtime} : M unit :=
  raw <- readAllStandardOutput ;;
  output <- or_raise UnicodeDecodeError (utf8_decode raw) ;;
  let output := slice_to output (rfind output LF) in
  for_each (splitlines output)
           (fun l => log pyqode_server DEBUG (MsgLine l)).

Definition _on_process_stderr_ready `{Runtime} : M unit :=
  raw <- readAllStandardError ;;
  output <- or_raise UnicodeDecodeError (utf8_decode raw) ;;
  let output := slice_to output (rfind output LF) in
  for_each (splitlines output)
           (fun l => log pyqode_server ERROR (MsgLine l)).

Definition terminate : M unit :=
  set_running false ;;
  emit ProcessTerminate.

(** [QProcess.waitForFinished]: the call alone; the [finished] signal
    the process emits from inside it is not delivered. *)
Definition waitForFinished : M unit := emit ProcessWaitForFinished.

End ServerProcess.

(** The class or function [request_work] is asked to run remotely, by the
    two attributes the method reads. *)
Record worker := { __module__ : text; __name__ : text }.

(** ** class JsonTcpClient *)
Module JsonTcpClient.
Section methods.
Context `{Runtime}.

Definition __init__ : json_tcp_client :=
  {| _header_complete := false;
     _header_buf := [];
     _to_read := 0;
     _data_buf := [];
     _callbacks := ∅;
     is_connected := false;
     _process := None;
     _connection_attempts := 0;
     _port := -1 |}.

Definition _terminate_server_process : M unit :=
  c <- get ;;
  match _process c with
  | Some p =>
      if running p then
        ServerProcess.terminate ;;
        ServerProcess.waitForFinished
      else pass
  | None => pass
  end.

Definition send (obj : json) : M unit :=
  log pyqode_client DEBUG (MsgSendingRequest obj) ;;
  msg <- or_raise TypeError (json_dumps obj) ;;
  msg <- or_raise UnicodeEncodeError (utf8_encode msg) ;;
  header <- or_raise StructError (pack_I (Z.of_nat (length msg))) ;;
  write header ;;
  write msg.

Definition close : M unit :=
  c <- get ;;
  (* self.is_connected and self._process.running *)
  cond <- (if is_connected c then
             match _process c with
             | Some p => ret (running p)
             | None => raise AttributeError
             end
           else ret false) ;;
  (if cond : bool then send (JStr (T "shutdown")) else pass) ;;
  QTcpSocket_close ;;
  _terminate_server_process ;;
  modify (with_is_connected false).

(** [socket.bind(('127.0.0.1', 0))] and [getsockname]: [free_port] is
    the port the operating system hands out. *)
Definition _pick_free_port (free_port : Z) : M Z :=
  emit (PickFreePort free_port) ;;
  ret free_port.

(** [start(server_script, interpreter, args)]; an [interpreter] left out
    is [sys.executable], as is [None]. *)
Definition start (server_script : text) (interpreter : option text)
    (args : option (list text)) (free_port : Z) : M unit :=
  log pyqode_client DEBUG MsgRunningWithPython ;;
  (if path_exists server_script then pass else raise AssertionError) ;;
  let interpreter :=
    match interpreter with
    | Some ((_ :: _) as i) => i
    | _ => sys_executable
    end in
  emit NewServerProcess ;;
  modify (with_process (Some ServerProcess.__init__)) ;;
  port <- _pick_free_port free_port ;;
  modify (with_port port) ;;
  c <- get ;;
  let '(program, pgm_args) :=
    if endswith server_script (T ".exe")
    then (server_script, [str_int (_port c)])
    else (interpreter, [server_script; str_int (_port c)]) in
  let pgm_args :=
    match args with
    | Some ((_ :: _) as a) => pgm_args ++ a
    | _ => pgm_args
    end in
  emit (ProcessStart program pgm_args) ;;
  log pyqode_client DEBUG (MsgStartingServerProcess program pgm_args).

(** [request_work(worker_class_or_function, args, on_receive)];
    [uuid4] is the string [str(uuid.uuid4())] comes to. *)
Definition request_work (worker_class_or_function : worker) (args : json)
    (on_receive : option callable) (uuid4 : text) : M unit :=
  c <- get ;;
  (if match _process c with
      | None => true
      | Some p => negb (running p) || negb (is_connected c)
      end
   then raise NotConnectedError else pass) ;;
  let classname := __module__ worker_class_or_function ++ T "."
                   ++ __name__ worker_class_or_function in
  let request_id := uuid4 in
  match on_receive with
  | Some callback =>
      modify (fun c => with_callbacks (<[request_id := callback]> (_callbacks c)) c)
  | None => pass
  end ;;
  send (JDict [(T "request_id", JStr request_id);
               (T "worker", JStr classname);
               (T "data", args)]).

Definition _on_process_started : M unit :=
  singleShot TIMEOUT_BEFORE_RETRY slot_connect.

Definition _connect : M unit :=
  c <- get ;;
  log pyqode_client DEBUG (MsgConnecting (_port c)) ;;
  modify (fun c => with_connection_attempts (_connection_attempts c + 1) c) ;;
  let address := T "127.0.0.1" in
  c <- get ;;
  connectToHost address (_port c).

Definition _on_connected : M unit :=
  log pyqode_client DEBUG MsgConnectedToServer ;;
  modify (with_is_connected true).

Definition _on_error (socket_error : Z) : M unit :=
  let socket_error :=
    match lookup_error socket_error SOCKET_ERROR_STRINGS with
    | Some _ => socket_error
    | None => -1
    end in
  description <- or_raise KeyError (lookup_error socket_error SOCKET_ERROR_STRINGS) ;;
  log pyqode_client ERROR (MsgSocketError socket_error description) ;;
  if decide (socket_error = ConnectionRefusedError) then
    c <- get ;;
    if decide (_connection_attempts c < MAX_RETRY) then
      singleShot TIMEOUT_BEFORE_RETRY slot_connect
    else
      raise RuntimeError
  else pass.

Definition _on_disconnected : M unit :=
  try_except_else
    (log pyqode_client DEBUG MsgDisconnectedFromServer)
    (fun e => bool_decide (e = AttributeError \/ e = RuntimeError))
    pass
    (fun _ => pass) ;;
  modify (with_is_connected false).

(** The [try] statement of [_on_ready_read]: what is done with a
    decoded message. *)
Definition dispatch (obj : json) : M unit :=
  try_except_else
    (request_id <- getitem obj (T "request_id") ;;
     results <- getitem obj (T "results") ;;
     status <- getitem obj (T "status") ;;
     ret (request_id, results, status))
    (fun e => bool_decide (e = TypeError \/ e = KeyError))
    pass (* internal request, no callback *)
    (fun '(request_id, results, status) =>
       (* possible callback *)
       c <- get ;;
       found <- contains (_callbacks c) request_id ;;
       if found : bool then
         callback <- pop_callback request_id ;;
         call callback status results
       else pass).

(** One turn of the [while] loop of [_on_ready_read]. *)
Definition _on_ready_read_body : M unit :=
  c <- get ;;
  if negb (_header_complete c) then
    chunk <- read 4 ;;
    modify (fun c => with_header_buf (_header_buf c ++ chunk) c) ;;
    c <- get ;;
    if decide (length (_header_buf c) = 4%nat) then
      modify (with_header_complete true) ;;
      s <- or_raise StructError (unpack_I (_header_buf c)) ;;
      modify (with_to_read s) ;;
      modify (with_header_buf [])
    else pass
  else
    chunk <- read (_to_read c) ;;
    modify (fun c => with_data_buf (_data_buf c ++ chunk) c) ;;
    modify (fun c => with_to_read
                       (_to_read c - Z.of_nat (length (_data_buf c))) c) ;;
    c <- get ;;
    if decide (_to_read c = 0) then
      data <- or_raise UnicodeDecodeError (utf8_decode (_data_buf c)) ;;
      obj <- or_raise ValueError (json_loads data) ;;
      log pyqode_client DEBUG (MsgResponseReceived obj) ;;
      dispatch obj ;;
      modify (with_header_complete false) ;;
      modify (with_data_buf [])
    else pass.

(** The loop never runs more than [2 * bytesAvailable + 2] turns (see
    [_on_ready_read_terminates] below), which is the fuel it gets. *)
Definition _on_ready_read : M unit :=
  fun w =>
    while (2 * length (socket w) + 2)%nat
          (n <- bytesAvailable ;; ret (negb (n =? 0)))
          _on_ready_read_body w.

End methods.
End JsonTcpClient.

(** ** The event loop *)
Section event_loop.
Context `{Runtime}.

(** A slot run from the Qt event loop: PyQt4 prints the traceback of an
    exception that leaves the slot and goes on with the next event. *)
Definition run_slot (m : M unit) (w : world) : option world :=
  match m w with
  | Done _ w' => Some w'
  | Raised e w' => Some (with_trace (trace w' ++ [Traceback e]) w')
  | OutOfFuel => None
  end.

(** [data] arrives on the socket, which emits [readyRead]. *)
Definition receive (data : bytes) (w : world) : option world :=
  run_slot JsonTcpClient._on_ready_read (with_socket (socket w ++ data) w).

(** One [readyRead] per chunk. *)
Fixpoint receive_all (chunks : list bytes) (w : world) : option world :=
  match chunks with
  | [] => Some w
  | data :: rest =>
      match receive data w with
      | Some w' => receive_all rest w'
      | None => None
      end
  end.

(** The worker writes [data] to its standard output, and the process
    emits [readyReadStandardOutput]. *)
Definition process_prints (data : bytes) (w : world) : option world :=
  run_slot ServerProcess._on_process_stdout_ready
           (with_stdout (stdout w ++ data) w).

(** The same for its standard error. *)
Definition process_complains (data : bytes) (w : world) : option world :=
  run_slot ServerProcess._on_process_stderr_ready
           (with_stderr (stderr w ++ data) w).

Fixpoint process_prints_all (chunks : list bytes) (w : world) : option world :=
  match chunks with
  | [] => Some w
  | data :: rest =>
      match process_prints data w with
      | Some w' => process_prints_all rest w'
      | None => None
      end
  end.

(** The oldest pending single-shot timer fires, once its delay has
    passed. *)
Definition fire_timer (w : world) : option world :=
  match timers w with
  | [] => Some w
  | (msec, slot_connect) :: rest =>
      run_slot JsonTcpClient._connect
               (with_trace (trace w ++ [TimerFired msec slot_connect])
                  (with_timers rest w))
  end.

(** The worker process has started: the [started] signal runs the slot
    of [ServerProcess] and then the one [start] connected. *)
Definition process_started (w : world) : option world :=
  match run_slot ServerProcess._on_process_started w with
  | Some w' => run_slot JsonTcpClient._on_process_started w'
  | None => None
  end.

(** Nothing listens on the port: each connection attempt is answered
    by the socket's [error] signal with [ConnectionRefusedError].  The
    loop fires the pending timer, lets the attempt be refused, and goes
    on for as long as a timer is pending, at most [n] times. *)
Fixpoint refuse_connections (n : nat) (w : world) : option world :=
  match n with
  | O => Some w
  | S n' =>
      match timers w with
      | [] => Some w
      | _ :: _ =>
          match fire_timer w with
          | Some w1 =>
              match run_slot (JsonTcpClient._on_error ConnectionRefusedError) w1 with
              | Some w2 => refuse_connections n' w2
              | None => None
              end
          | None => None
          end
      end
  end.

End event_loop.

(** ** What a trace shows *)

(** The messages the frame decoder decoded, in order. *)
Fixpoint decoded (tr : list event) : list json :=
  match tr with
  | [] => []
  | Log _ _ (MsgResponseReceived obj) :: rest => obj :: decoded rest
  | _ :: rest => decoded rest
  end.

(** The callbacks invoked, with their arguments, in order. *)
Fixpoint calls (tr : list event) : list (callable * json * json) :=
  match tr with
  | [] => []
  | Call callback status results :: rest => (callback, status, results) :: calls rest
  | _ :: rest => calls rest
  end.

(** The connection attempts made. *)
Fixpoint attempts (tr : list event) : nat :=
  match tr with
  | [] => O
  | ConnectToHost _ _ :: rest => S (attempts rest)
  | _ :: rest => attempts rest
  end.

(** The lines logged on a logger, with their level, in order. *)
Fixpoint lines (lg : logger) (tr : list event) : list (level * text) :=
  match tr with
  | [] => []
  | Log lg' lv (MsgLine l) :: rest =>
      match lg, lg' with
      | pyqode_server, pyqode_server | pyqode_client, pyqode_client =>
          (lv, l) :: lines lg rest
      | _, _ => lines lg rest
      end
  | _ :: rest => lines lg rest
  end.

(** The delays of the timers that fired, in milliseconds. *)
Fixpoint waits (tr : list event) : list Z :=
  match tr with
  | [] => []
  | TimerFired msec _ :: rest => msec :: waits rest
  | _ :: rest => waits rest
  end.

(** The exceptions that left a slot. *)
Fixpoint tracebacks (tr : list event) : list exn :=
  match tr with
  | [] => []
  | Traceback e :: rest => e :: tracebacks rest
  | _ :: rest => tracebacks rest
  end.

(** The bytes written to the socket, in order. *)
Fixpoint written (tr : list event) : bytes :=
  match tr with
  | [] => []
  | SocketWrite data :: rest => data ++ written rest
  | _ :: rest => written rest
  end.

(** The calls made on the socket, on the process and on the callbacks,
    and what the event loop did: the trace without its log records. *)
Fixpoint actions (tr : list event) : list event :=
  match tr with
  | [] => []
  | Log _ _ _ :: rest => actions rest
  | e :: rest => e :: actions rest
  end.

(** A freshly constructed client, nothing received and nothing pending. *)
Definition fresh : world :=
  {| self := JsonTcpClient.__init__; socket := []; stdout := [];
     stderr := []; timers := []; trace := [] |}.

(** One frame on the wire: the header [send] writes, then the payload. *)
Definition frame `{Runtime} (payload : bytes) : option bytes :=
  match pack_I (Z.of_nat (length payload)) with
  | Some header => Some (header ++ payload)
  | None => None
  end.

(** ** A runtime to run the model on

    A little-endian machine and the fragment of UTF-8 and JSON the
    examples below need: ASCII text, and JSON made of [null], [true],
    [false], integers, strings without escape sequences, arrays and
    objects.  Input outside the fragment is refused ([None]); inside it
    the functions agree with Python's. *)
Module AsciiRuntime.

Definition decode (b : bytes) : option text :=
  if forallb (fun x => Byte.to_N x <? 128)%N b
  then Some (map Byte.to_N b)
  else None.

Definition encode (s : text) : option bytes :=
  mapM (fun c => if (c <? 128)%N then Byte.of_N c else None) s.

Definition is_ws (c : N) : bool := bool_decide (c ∈ [32; 9; 10; 13]%N).

Fixpoint skip_ws (s : text) : text :=
  match s with
  | c :: rest => if is_ws c then skip_ws rest else s
  | [] => []
  end.

Fixpoint strip_prefix (p s : text) : option text :=
  match p, s with
  | [], _ => Some s
  | a :: p', b :: s' => if N.eqb a b then strip_prefix p' s' else None
  | _ :: _, [] => None
  end.

(** The characters of a string literal after its opening quote. *)
Fixpoint read_string (s acc : text) : option (text * text) :=
  match s with
  | [] => None
  | c :: rest =>
      if N.eqb c 34 then Some (acc, rest)
      else if N.eqb c 92 || (c <? 32)%N then None
      else read_string rest (acc ++ [c])
  end.

Definition digit (c : N) : option Z :=
  if (48 <=? c)%N && (c <=? 57)%N then Some (Z.of_N c - 48) else None.

Fixpoint read_digits (s : text) (acc : Z) : Z * text :=
  match s with
  | c :: rest =>
      match digit c with
      | Some d => read_digits rest (10 * acc + d)
      | None => (acc, s)
      end
  | [] => (acc, [])
  end.

(** [0] or a digit string that does not start with [0]; a fraction or
    an exponent after it is outside the fragment. *)
Definition read_natural (s : text) : option (Z * text) :=
  match s with
  | c :: rest =>
      match digit c with
      | Some d =>
          let '(v, rest') := if decide (d = 0) then (0, rest) else read_digits rest d in
          match rest' with
          | x :: _ => if bool_decide (x ∈ [46; 69; 101]%N) then None else Some (v, rest')
          | [] => Some (v, rest')
          end
      | None => None
      end
  | [] => None
  end.

(** [d[k] = v] on a [dict] kept in insertion order. *)
Fixpoint dict_set (k : text) (v : json) (kvs : list (text * json)) :=
  match kvs with
  | [] => [(k, v)]
  | (k', v') :: rest =>
      if decide (k' = k) then (k, v) :: rest else (k', v') :: dict_set k v rest
  end.

Fixpoint read_value (fuel : nat) (s : text) : option (json * text) :=
  match fuel with
  | O => None
  | S fuel' =>
      match skip_ws s with
      | [] => None
      | c :: rest =>
          if N.eqb c 34 then
            match read_string rest [] with
            | Some (str, rest') => Some (JStr str, rest')
            | None => None
            end
          else if N.eqb c 91 then
            match skip_ws rest with
            | 93%N :: rest' => Some (JList [], rest')
            | _ => read_items fuel' rest []
            end
          else if N.eqb c 123 then
            match skip_ws rest with
            | 125%N :: rest' => Some (JDict [], rest')
            | _ => read_members fuel' rest []
            end
          else if N.eqb c 45 then
            match read_natural rest with
            | Some (v, rest') => Some (JInt (- v), rest')
            | None => None
            end
          else
            match strip_prefix (T "null") (c :: rest),
                  strip_prefix (T "true") (c :: rest),
                  strip_prefix (T "false") (c :: rest) with
            | Some rest', _, _ => Some (JNull, rest')
            | _, Some rest', _ => Some (JBool true, rest')
            | _, _, Some rest' => Some (JBool false, rest')
            | _, _, _ =>
                match read_natural (c :: rest) with
                | Some (v, rest') => Some (JInt v, rest')
                | None => None
                end
            end
      end
  end
with read_items (fuel : nat) (s : text) (acc : list json) : option (json * text) :=
  match fuel with
  | O => None
  | S fuel' =>
      match read_value fuel' s with
      | Some (v, rest) =>
          match skip_ws rest with
          | 44%N :: rest' => read_items fuel' rest' (acc ++ [v])
          | 93%N :: rest' => Some (JList (acc ++ [v]), rest')
          | _ => None
          end
      | None => None
      end
  end
with read_members (fuel : nat) (s : text) (acc : list (text * json)) : option (json * text) :=
  match fuel with
  | O => None
  | S fuel' =>
      match skip_ws s with
      | 34%N :: rest =>
          match read_string rest [] with
          | Some (k, rest1) =>
              match skip_ws rest1 with
              | 58%N :: rest2 =>
                  match read_value fuel' rest2 with
                  | Some (v, rest3) =>
                      match skip_ws rest3 with
                      | 44%N :: rest4 => read_members fuel' rest4 (dict_set k v acc)
                      | 125%N :: rest4 => Some (JDict (dict_set k v acc), rest4)
                      | _ => None
                      end
                  | None => None
                  end
              | _ => None
              end
          | None => None
          end
      | _ => None
      end
  end.

Definition loads (s : text) : option json :=
  match read_value (2 * length s + 2) s with
  | Some (v, rest) =>
      match skip_ws rest with
      | [] => Some v
      | _ :: _ => None
      end
  | None => None
  end.

Fixpoint join (sep : text) (parts : list text) : text :=
  match parts with
  | [] => []
  | [p] => p
  | p :: rest => p ++ sep ++ join sep rest
  end.

Definition quote (s : text) : option text :=
  if forallb (fun c => (32 <=? c)%N && (c <? 127)%N
                       && negb (N.eqb c 34) && negb (N.eqb c 92)) s
  then Some ([34%N] ++ s ++ [34%N])
  else None.

Fixpoint dumps (obj : json) : option text :=
  match obj with
  | JNull => Some (T "null")
  | JBool true => Some (T "true")
  | JBool false => Some (T "false")
  | JInt n => Some (str_int n)
  | JFloat _ => None
  | JStr s => quote s
  | JList xs =>
      match (fix go (xs : list json) : option (list text) :=
               match xs with
               | [] => Some []
               | x :: rest =>
                   match dumps x, go rest with
                   | Some x', Some rest' => Some (x' :: rest')
                   | _, _ => None
                   end
               end) xs with
      | Some parts => Some (T "[" ++ join (T ", ") parts ++ T "]")
      | None => None
      end
  | JDict kvs =>
      match (fix go (kvs : list (text * json)) : option (list text) :=
               match kvs with
               | [] => Some []
               | (k, v) :: rest =>
                   match quote k, dumps v, go rest with
                   | Some k', Some v', Some rest' =>
                       Some ((k' ++ T ": " ++ v') :: rest')
                   | _, _, _ => None
                   end
               end) kvs with
      | Some parts => Some (T "{" ++ join (T ", ") parts ++ T "}")
      | None => None
      end
  end.

(** Only the script [/srv/server.py] exists. *)
Definition exists_ (path : text) : bool :=
  bool_decide (path = T "/srv/server.py").

#[export] Instance runtime : Runtime :=
  {| byteorder := LittleEndian;
     utf8_decode := decode;
     utf8_encode := encode;
     json_loads := loads;
     json_dumps := dumps;
     path_exists := exists_;
     sys_executable := T "/usr/bin/python" |}.

End AsciiRuntime.

(** ** Writing examples *)

(** The bytes of an ASCII literal in which every apostrophe stands for a
    double quote, so that JSON payloads can be spelled in place. *)
Definition J (s : string) : bytes :=
  map (fun b => if Byte.eqb b "'"%byte then x22 else b) (list_byte_of_string s).

(** [data] cut into chunks of one byte. *)
Definition bytewise (data : bytes) : list bytes := map (fun b => [b]) data.

(** ** The line forwarder as the specification words it

    "Forwards each line to a logging sink (info-level for stdout,
    error-level for stderr); must tolerate partial lines across read
    boundaries (buffer until newline) and must not forward a trailing
    unterminated fragment as a complete line prematurely." *)
Module Spec.

(** The lines [chunk] completes, given the fragment [pending] from the
    reads before, and the fragment left pending after it. *)
Fixpoint forward (lv : level) (pending chunk : text) : list (level * text) * text :=
  match chunk with
  | [] => ([], pending)
  | c :: rest =>
      if N.eqb c LF then
        let '(ls, p) := forward lv [] rest in ((lv, pending) :: ls, p)
      else forward lv (pending ++ [c]) rest
  end.

Fixpoint forward_all (lv : level) (pending : text) (chunks : list text)
    : list (level * text) :=
  match chunks with
  | [] => []
  | chunk :: rest =>
      let '(ls, p) := forward lv pending chunk in
      ls ++ forward_all lv p rest
  end.

Definition stdout_lines (chunks : list text) := forward_all INFO [] chunks.
Definition stderr_lines (chunks : list text) := forward_all ERROR [] chunks.

End Spec.

(** ** Notions the statements use *)

(** The three fields [dispatch] reads from a decoded message, when it is
    a [dict] that has them all. *)
Definition response_fields (obj : json) : option (json * json * json) :=
  match obj with
  | JDict kvs =>
      match assoc (T "request_id") kvs, assoc (T "results") kvs,
            assoc (T "status") kvs with
      | Some request_id, Some results, Some status =>
          Some (request_id, results, status)
      | _, _, _ => None
      end
  | _ => None
  end.

(** A request identifier for which no callback is pending.  Identifiers
    are JSON scalars (strings, by the wire protocol); a [list] or [dict]
    cannot be looked up in a [dict] at all. *)
Definition unregistered (request_id : json) (callbacks : gmap text callable) : Prop :=
  match request_id with
  | JStr s => callbacks !! s = None
  | JList _ | JDict _ => False
  | _ => True
  end.

(** What [_on_ready_read] does once a payload is complete. *)
Definition complete_message `{Runtime} (w : world) : result unit :=
  (data <- or_raise UnicodeDecodeError (utf8_decode (_data_buf (self w))) ;;
   obj <- or_raise ValueError (json_loads data) ;;
   log pyqode_client DEBUG (MsgResponseReceived obj) ;;
   JsonTcpClient.dispatch obj ;;
   modify (with_header_complete false) ;;
   modify (with_data_buf [])) w.

(** An upper bound on the turns the loop of [_on_ready_read] still
    makes: two per available byte, and one more when a payload of
    declared length zero is awaited. *)
Definition turns_left (w : world) : nat :=
  (2 * length (socket w)
   + (if _header_complete (self w) && Z.eqb (_to_read (self w)) 0 then 1 else 0))%nat.

(** The decoder waits for the first byte of a header, and the socket has
    nothing left to read. *)
Definition at_frame_boundary (w : world) : Prop :=
  _header_complete (self w) = false /\ _header_buf (self w) = []
  /\ _data_buf (self w) = [] /\ socket w = [].

(** The decoder holds a payload it could not hand over: it is in payload
    mode with nothing left to read of it. *)
Definition wedged (w : world) : Prop :=
  _header_complete (self w) = true /\ _to_read (self w) <= 0
  /\ _data_buf (self w) <> [].

(** The world a method leaves behind, whether it returned or raised. *)
Definition after {A} (r : result A) : option world :=
  match r with
  | Done _ w => Some w
  | Raised _ w => Some w
  | OutOfFuel => None
  end.

(** The world after the header and the payload of a frame were read. *)
Definition payload_read (payload rest : bytes) (w : world) : world :=
  with_self (with_to_read 0)
    (with_self (with_data_buf payload)
       (with_self (with_header_complete true) (with_socket rest w))).

(** The world once a frame was handled: its bytes are consumed, the
    decoder is back in header mode, and [events] were added to the
    trace. *)
Definition frame_handled (rest : bytes) (events : list event) (w : world) : world :=
  with_trace (trace w ++ events) (with_self (with_to_read 0) (with_socket rest w)).

(** Whether [request_work] finds a running process and a connection. *)
Definition ready (c : json_tcp_client) : bool :=
  match _process c with
  | Some p => running p && is_connected c
  | None => false
  end.

(** Text without any of the line boundaries of [str.splitlines]. *)
Definition one_line (l : text) : Prop := Forall (fun c => is_linebreak c = false) l.

(** A decoded message whose request identifier, if it has one, can be
    looked up in the callback table. *)
Definition hashable_id (obj : json) : Prop :=
  match response_fields obj with
  | Some (JList _, _, _) | Some (JDict _, _, _) => False
  | _ => True
  end.

(** Several frames, one after the other. *)
Fixpoint frames `{Runtime} (payloads : list bytes) : option bytes :=
  match payloads with
  | [] => Some []
  | payload :: rest =>
      match frame payload, frames rest with
      | Some data, Some data' => Some (data ++ data')
      | _, _ => None
      end
  end.

(** A payload that decodes to [obj], a message [dispatch] can look up. *)
Definition decodes_to `{Runtime} (payload : bytes) (obj : json) : Prop :=
  payload <> []
  /\ (exists t, utf8_decode payload = Some t /\ json_loads t = Some obj)
  /\ hashable_id obj.

(** ** Inputs of the examples *)

(** The frame of the JSON string ["a"], as a little-endian machine sends
    it: a header of four bytes, then three bytes of payload. *)
Definition frame_a : bytes := [x03; x00; x00; x00] ++ J "'a'".

(** The frame of the JSON number [123]. *)
Definition frame_123 : bytes := [x03; x00; x00; x00] ++ J "123".

(** The frame of a payload that is no JSON. *)
Definition frame_bad : bytes := [x01; x00; x00; x00] ++ J "{".

(** A response to the request [r1], and its frame. *)
Definition response_r1 : bytes :=
  J "{'request_id': 'r1', 'status': true, 'results': [1, 2]}".

Definition frame_r1 : bytes := [x37; x00; x00; x00] ++ response_r1.

(** A second response to the same request. *)
Definition response_r1_again : bytes :=
  J "{'request_id': 'r1', 'status': false, 'results': null}".

Definition frame_r1_again : bytes := [x36; x00; x00; x00] ++ response_r1_again.

(** A response to a request nobody made. *)
Definition response_r2 : json :=
  JDict [(T "request_id", JStr (T "r2")); (T "status", JBool true);
         (T "results", JNull)].

Definition echo : worker := {| __module__ := T "workers"; __name__ := T "echo" |}.

(** A client on which [start] has just returned, on the ASCII runtime. *)
Definition started : world :=
  default fresh
    (after (@JsonTcpClient.start AsciiRuntime.runtime
              (T "/srv/server.py") None None 50000 fresh)).

(** The worker process has started, the timer has fired, and the
    connection was accepted. *)
Definition connection_made (w : world) : option world :=
  match process_started w with
  | Some w1 =>
      match fire_timer w1 with
      | Some w2 => run_slot JsonTcpClient._on_connected w2
      | None => None
      end
  | None => None
  end.

(** The started client once its connection is made. *)
Definition connected : world := default fresh (connection_made started).

(** [start] is called again on [w], and the connection is made. *)
Definition restarted (w : world) : option world :=
  match after (@JsonTcpClient.start AsciiRuntime.runtime
                 (T "/srv/server.py") None None 50001 w) with
  | Some w1 => connection_made w1
  | None => None
  end.

(** The connected client after a request to which the identifier [r1]
    was given, made with the callback [7]. *)
Definition pending_r1 : world :=
  default fresh
    (after (@JsonTcpClient.request_work AsciiRuntime.runtime
              echo (JInt 1) (Some 7%N) (T "r1") connected)).

(** The started client after its worker process has started and a
    hundred connection attempts were refused. *)
Definition exhausted : world :=
  default fresh
    (match process_started started with
     | Some w1 => refuse_connections 100 w1
     | None => None
     end).

(** A frame that declares an empty payload. *)
Definition frame_empty : bytes := [x00; x00; x00; x00].

(** A response to the request [r2], and its frame. *)
Definition reply_r2 : bytes :=
  J "{'request_id': 'r2', 'status': true, 'results': null}".

Definition frame_r2 : bytes := [x35; x00; x00; x00] ++ reply_r2.

(** A response whose request identifier is a list, and its frame. *)
Definition reply_listed : bytes :=
  J "{'request_id': [1], 'status': true, 'results': null}".

Definition frame_listed : bytes := [x34; x00; x00; x00] ++ reply_listed.

(** What that response decodes to. *)
Definition response_listed : json :=
  JDict [(T "request_id", JList [JInt 1]); (T "status", JBool true);
         (T "results", JNull)].

(** The request [send] is given by [request_work echo 1] under the
    identifier [r1]. *)
Definition request_r1 : json :=
  JDict [(T "request_id", JStr (T "r1")); (T "worker", JStr (T "workers.echo"));
         (T "data", JInt 1)].

(** The client with [r1] pending after a second request, to which the
    identifier [r2] was given, made with the callback [8]. *)
Definition pending_r1_r2 : world :=
  default fresh
    (after (@JsonTcpClient.request_work AsciiRuntime.runtime
              echo (JInt 2) (Some 8%N) (T "r2") pending_r1)).

(** * Properties *)

(** ** Tactics *)

(** Projections of updated records. *)
Ltac fields :=
  cbn [self socket stdout stderr timers trace
       with_self with_socket with_stdout with_stderr with_timers with_trace
       _header_complete _header_buf _to_read _data_buf _callbacks
       is_connected _process _connection_attempts _port
       with_header_complete with_header_buf with_to_read with_data_buf
       with_callbacks with_is_connected with_process
       with_connection_attempts with_port andb] in *.

(** The monad and the helper operations, unfolded. *)
Ltac run :=
  unfold JsonTcpClient.dispatch,
    try_except_else, getitem, contains, pop_callback, call, log, emit,
    or_raise, modify, get, read, pass, bind, ret, raise.

(** ** struct *)

Lemma from_little_to_little n v :
  0 <= v < 256 ^ Z.of_nat n -> from_little (to_little n v) = v.
Proof.
  revert v. induction n as [|n IH]; intros v Hv.
  - simpl in *. lia.
  - cbn [to_little].
    assert (Hm : 0 <= v mod 256 < 256) by (apply Z.mod_pos_bound; lia).
    destruct (Byte.of_N (Z.to_N (v mod 256))) as [b|] eqn:Eb.
    + cbn [from_little]. apply Byte.to_of_N in Eb. rewrite Eb.
      rewrite IH.
      * rewrite Z2N.id by lia. rewrite (Z.div_mod v 256) at 3 by lia. lia.
      * rewrite Nat2Z.inj_succ, Z.pow_succ_r in Hv by lia.
        split; [apply Z.div_pos; lia | apply Z.div_lt_upper_bound; lia].
    + exfalso. apply Byte.of_N_None_iff in Eb. lia.
Qed.

(** ** The frame decoder, one turn at a time *)
Section decoder.
Context `{Runtime}.

(** A turn in header mode: up to four bytes are appended to the header
    buffer, whatever it already holds; the header is complete only if the
    buffer then has exactly four bytes. *)
Lemma body_header w :
  _header_complete (self w) = false ->
  JsonTcpClient._on_ready_read_body w =
    let buf := _header_buf (self w) ++ take 4 (socket w) in
    let w1 := with_self (with_header_buf buf) (with_socket (drop 4 (socket w)) w) in
    if decide (length buf = 4%nat)
    then Done tt (with_self (with_header_buf [])
                    (with_self (with_to_read (from_little (in_order byteorder buf)))
                       (with_self (with_header_complete true) w1)))
    else Done tt w1.
Proof.
intros Hc. unfold JsonTcpClient._on_ready_read_body. run.
rewrite Hc. cbn. change (Z.to_nat 4) with 4%nat.
case_decide as Hl; [|reflexivity].
unfold unpack_I. cbn. rewrite decide_True by exact Hl. reflexivity.
Qed.

(** A turn in payload mode: up to [_to_read] bytes are appended to the
    payload buffer, and the length of the whole buffer is taken off
    [_to_read]. *)
Lemma body_payload w :
  _header_complete (self w) = true ->
  0 <= _to_read (self w) ->
  JsonTcpClient._on_ready_read_body w =
    let n := Z.to_nat (_to_read (self w)) in
    let buf := _data_buf (self w) ++ take n (socket w) in
    let w1 := with_self (with_to_read (_to_read (self w) - Z.of_nat (length buf)))
                (with_self (with_data_buf buf) (with_socket (drop n (socket w)) w)) in
    if decide (_to_read (self w) - Z.of_nat (length buf) = 0)
    then complete_message w1
    else Done tt w1.
Proof.
intros Hc Hn. unfold JsonTcpClient._on_ready_read_body, complete_message. run.
rewrite Hc. cbn. destruct (Z.ltb_spec (_to_read (self w)) 0) as [|_]; [lia|].
cbn. case_decide; reflexivity.
Qed.

(** A turn in payload mode with a negative [_to_read]: [read] raises. *)
Lemma body_negative w :
  _header_complete (self w) = true ->
  _to_read (self w) < 0 ->
  JsonTcpClient._on_ready_read_body w = Raised ValueError w.
Proof.
intros Hc Hn. unfold JsonTcpClient._on_ready_read_body. run.
rewrite Hc. cbn. destruct (Z.ltb_spec (_to_read (self w)) 0) as [_|]; [|lia].
reflexivity.
Qed.

(** A message without the three response fields is passed over. *)
Lemma dispatch_no_fields obj w :
  response_fields obj = None -> JsonTcpClient.dispatch obj w = Done tt w.
Proof.
unfold response_fields. run. intros Hf.
destruct obj as [| | | | | |kvs]; try reflexivity.
destruct (assoc (T "request_id") kvs); [|reflexivity].
destruct (assoc (T "results") kvs); [|reflexivity].
destruct (assoc (T "status") kvs); [discriminate|reflexivity].
Qed.

(** A message with the three response fields: what [dispatch] does, by
    the kind of its request identifier. *)
Lemma dispatch_fields obj request_id results status w :
  response_fields obj = Some (request_id, results, status) ->
  JsonTcpClient.dispatch obj w =
    match request_id with
    | JList _ | JDict _ => Raised TypeError w
    | JStr s =>
        match _callbacks (self w) !! s with
        | Some callback =>
            Done tt (with_trace (trace w ++ [Call callback status results])
                       (with_self (with_callbacks (delete s (_callbacks (self w)))) w))
        | None => Done tt w
        end
    | _ => Done tt w
    end.
Proof.
unfold response_fields. run. intros Hf.
destruct obj as [| | | | | |kvs]; try discriminate.
destruct (assoc (T "request_id") kvs); [|discriminate].
destruct (assoc (T "results") kvs); [|discriminate].
destruct (assoc (T "status") kvs); [|discriminate].
injection Hf as -> -> ->.
destruct request_id as [| | | |s| |]; try reflexivity.
cbn. destruct (_callbacks (self w) !! s) as [cb|] eqn:E; cbn.
- rewrite E. reflexivity.
- reflexivity.
Qed.

(** [dispatch] leaves the socket, the timers and the decoder alone. *)
Lemma dispatch_keeps obj w w' :
  JsonTcpClient.dispatch obj w = Done tt w' ->
  socket w' = socket w /\ timers w' = timers w
  /\ _header_complete (self w') = _header_complete (self w)
  /\ _to_read (self w') = _to_read (self w)
  /\ _data_buf (self w') = _data_buf (self w)
  /\ _header_buf (self w') = _header_buf (self w).
Proof.
destruct (response_fields obj) as [[[request_id results] status]|] eqn:Hf.
- rewrite (dispatch_fields _ _ _ _ _ Hf).
  destruct request_id as [| | | |s| |]; try discriminate;
    try (intros [= <-]; tauto).
  destruct (_callbacks (self w) !! s); intros [= <-]; cbn; tauto.
- rewrite (dispatch_no_fields _ _ Hf). intros [= <-]; tauto.
Qed.

(** [dispatch] raises nothing but [TypeError], before it changes anything. *)
Lemma dispatch_raises obj w e w' :
  JsonTcpClient.dispatch obj w = Raised e w' -> e = TypeError /\ w' = w.
Proof.
destruct (response_fields obj) as [[[request_id results] status]|] eqn:Hf.
- rewrite (dispatch_fields _ _ _ _ _ Hf).
  destruct request_id as [| | | |s| |]; try discriminate;
    try (intros [= <- <-]; tauto).
  destruct (_callbacks (self w) !! s); discriminate.
- rewrite (dispatch_no_fields _ _ Hf). discriminate.
Qed.

(** [dispatch] is loop free. *)
Lemma dispatch_returns_or_raises obj w :
  JsonTcpClient.dispatch obj w <> OutOfFuel.
Proof.
destruct (response_fields obj) as [[[request_id results] status]|] eqn:Hf.
- rewrite (dispatch_fields _ _ _ _ _ Hf).
  destruct request_id as [| | | |s| |]; try discriminate.
  destruct (_callbacks (self w) !! s); discriminate.
- rewrite (dispatch_no_fields _ _ Hf). discriminate.
Qed.

(** A complete payload either is dispatched, after which the decoder is
    back in header mode with the socket untouched, or raises. *)
Lemma complete_message_Done w w' :
  complete_message w = Done tt w' ->
  socket w' = socket w /\ timers w' = timers w
  /\ _header_complete (self w') = false /\ _data_buf (self w') = []
  /\ _header_buf (self w') = _header_buf (self w).
Proof.
unfold complete_message. unfold or_raise at 1. unfold bind at 1.
destruct (utf8_decode (_data_buf (self w))) as [data|]; [|discriminate].
cbn. unfold or_raise at 1. unfold bind at 1.
destruct (json_loads data) as [obj|]; [|discriminate].
cbn. unfold bind at 1.
destruct (JsonTcpClient.dispatch obj _) as [[] w1| |] eqn:Hd; try discriminate.
apply dispatch_keeps in Hd. cbn in Hd. cbn. intros [= <-]. cbn. tauto.
Qed.

(** Decoding and dispatching are loop free. *)
Lemma complete_message_not_cut w : complete_message w <> OutOfFuel.
Proof.
unfold complete_message. unfold or_raise at 1. unfold bind at 1.
destruct (utf8_decode (_data_buf (self w))) as [data|]; [|discriminate].
cbn. unfold or_raise at 1. unfold bind at 1.
destruct (json_loads data) as [obj|]; [|discriminate].
cbn. unfold bind at 1.
pose proof (dispatch_returns_or_raises obj
  (with_trace (trace w ++ [Log pyqode_client DEBUG (MsgResponseReceived obj)]) w)) as Hd.
destruct (JsonTcpClient.dispatch obj _) as [[] w1| |]; try discriminate.
congruence.
Qed.

(** So is one turn of the loop. *)
Lemma body_not_cut w : JsonTcpClient._on_ready_read_body w <> OutOfFuel.
Proof.
destruct (_header_complete (self w)) eqn:Hc.
- destruct (Z.lt_ge_cases (_to_read (self w)) 0).
  + rewrite body_negative by assumption. discriminate.
  + rewrite body_payload by assumption. cbv zeta.
    case_decide; [apply complete_message_not_cut | discriminate].
- rewrite body_header by assumption. cbv zeta. case_decide; discriminate.
Qed.

(** Every turn that returns brings the loop closer to its end. *)
Lemma body_decreases w w' :
  socket w <> [] ->
  JsonTcpClient._on_ready_read_body w = Done tt w' ->
  (turns_left w' < turns_left w)%nat.
Proof.
intros Hs. unfold turns_left.
assert (Hlen : (0 < length (socket w))%nat) by (destruct (socket w); [done | cbn; lia]).
clear Hs.
destruct (_header_complete (self w)) eqn:Hc.
- destruct (Z.lt_ge_cases (_to_read (self w)) 0) as [Hn|Hn].
  + rewrite body_negative by assumption. discriminate.
  + rewrite body_payload by assumption. cbv zeta. case_decide as Hz.
    * intros Hd. apply complete_message_Done in Hd as (-> & _ & -> & _).
      fields. rewrite length_drop. clear Hz.
      destruct (Z.eqb_spec (_to_read (self w)) 0); lia.
    * intros [= <-]. fields. rewrite length_drop.
      destruct (Z.eqb_spec (_to_read (self w) -
        Z.of_nat (length (_data_buf (self w) ++ take (Z.to_nat (_to_read (self w))) (socket w)))) 0);
        [contradiction|].
      clear Hz n. rewrite Hc. fields.
      destruct (Z.eqb_spec (_to_read (self w)) 0); lia.
- rewrite body_header by assumption. cbv zeta. case_decide.
  + intros [= <-]. fields. rewrite length_drop. case_match; lia.
  + intros [= <-]. fields. rewrite Hc. fields. rewrite length_drop. lia.
Qed.
End decoder.

(** ** The loop of [_on_ready_read] *)
Section loop.
Context `{Runtime}.

Local Abbreviation more := (n <- bytesAvailable ;; ret (negb (n =? 0))).
Local Abbreviation body := JsonTcpClient._on_ready_read_body.

(** The loop with [fuel], one turn unrolled. *)
Lemma while_unfold fuel w :
  while fuel more body w =
    match socket w with
    | [] => Done tt w
    | _ :: _ =>
        match fuel with
        | O => OutOfFuel
        | S fuel' => (body ;; while fuel' more body) w
        end
    end.
Proof.
  destruct fuel; cbn [while]; unfold bind at 1; unfold bind at 1;
    unfold bytesAvailable, ret; destruct (socket w); reflexivity.
Qed.

(** With more fuel than turns left, the loop is not cut short. *)
Lemma while_enough_fuel fuel w :
  (turns_left w < fuel)%nat -> while fuel more body w <> OutOfFuel.
Proof.
  revert w. induction fuel as [|fuel IH]; intros w Hf; [lia|].
  rewrite while_unfold. destruct (socket w) eqn:Hs; [discriminate|].
  unfold bind. destruct (body w) as [[] w'| |] eqn:Hb; try discriminate.
  - apply IH. apply body_decreases in Hb; [lia|]. rewrite Hs. discriminate.
  - exfalso. exact (body_not_cut w Hb).
Qed.

(** More fuel does not change what the loop does. *)
Lemma while_more_fuel fuel fuel' w :
  (fuel <= fuel')%nat -> while fuel more body w <> OutOfFuel ->
  while fuel' more body w = while fuel more body w.
Proof.
  revert fuel' w. induction fuel as [|fuel IH]; intros fuel' w Hle Hr.
  - rewrite while_unfold in Hr. rewrite (while_unfold fuel'), (while_unfold 0).
    destruct (socket w); [reflexivity | congruence].
  - destruct fuel' as [|fuel']; [lia|].
    rewrite while_unfold in Hr. rewrite (while_unfold (S fuel')), (while_unfold (S fuel)).
    destruct (socket w); [reflexivity|].
    unfold bind in *. destruct (body w) as [[] w'| |]; try reflexivity.
    apply IH; [lia | exact Hr].
Qed.

(** The loop always comes to an end: it returns or raises. *)
Lemma _on_ready_read_terminates w : JsonTcpClient._on_ready_read w <> OutOfFuel.
Proof.
  unfold JsonTcpClient._on_ready_read. apply while_enough_fuel.
  unfold turns_left. case_match; lia.
Qed.

(** The loop, one turn unrolled. *)
Lemma _on_ready_read_unfold w :
  JsonTcpClient._on_ready_read w =
    match socket w with
    | [] => Done tt w
    | _ :: _ => (body ;; JsonTcpClient._on_ready_read) w
    end.
Proof.
  unfold JsonTcpClient._on_ready_read at 1. rewrite while_unfold.
  destruct (socket w) as [|b l] eqn:Hs; [reflexivity|].
  replace (2 * length (b :: l) + 2)%nat with (S (2 * length (b :: l) + 1)) by lia.
  unfold bind. destruct (body w) as [[] w'| |] eqn:Hb; try reflexivity.
  unfold JsonTcpClient._on_ready_read.
  assert (Hd : (turns_left w' < turns_left w)%nat).
  { apply body_decreases; [rewrite Hs; discriminate | exact Hb]. }
  assert (Hw : (turns_left w <= 2 * length (b :: l) + 1)%nat).
  { unfold turns_left. rewrite Hs. case_match; lia. }
  destruct (Nat.le_ge_cases (2 * length (socket w') + 2) (2 * length (b :: l) + 1)) as [Hle|Hge].
  - apply while_more_fuel; [exact Hle|]. apply while_enough_fuel.
    unfold turns_left. case_match; lia.
  - symmetry. apply while_more_fuel; [exact Hge|]. apply while_enough_fuel. lia.
Qed.

(** A slot that runs the loop always hands the event loop a world. *)
Lemma receive_total data w : is_Some (receive data w).
Proof.
  unfold receive, run_slot.
  pose proof (_on_ready_read_terminates (with_socket (socket w ++ data) w)) as Ht.
  destruct (JsonTcpClient._on_ready_read _); [eauto | eauto | congruence].
Qed.
End loop.

(** ** Whole frames *)
Section frames.
Context `{Runtime}.

(** [to_little n] gives [n] bytes. *)
Lemma length_to_little n v : length (to_little n v) = n.
Proof.
  revert v. induction n as [|n IH]; intros v; [reflexivity|].
  cbn [to_little].
  assert (Hm : 0 <= v mod 256 < 256) by (apply Z.mod_pos_bound; lia).
  destruct (Byte.of_N (Z.to_N (v mod 256))) eqn:Eb.
  - cbn. now rewrite IH.
  - apply Byte.of_N_None_iff in Eb. lia.
Qed.

(** [struct.unpack] undoes [struct.pack]. *)
Lemma unpack_pack v header :
  pack_I v = Some header -> length header = 4%nat /\ unpack_I header = Some v.
Proof.
  unfold pack_I, unpack_I. case_decide as Hv; [|discriminate]. intros [= <-].
  assert (Hl : length (in_order byteorder (to_little 4 v)) = 4%nat).
  { destruct byteorder; cbn [in_order]; rewrite ?length_rev; apply length_to_little. }
  split; [exact Hl|]. rewrite decide_True by exact Hl. f_equal.
  destruct byteorder; cbn [in_order]; rewrite ?rev_involutive;
    apply (from_little_to_little 4); lia.
Qed.

(** A whole frame at hand is read in two turns, which leave its payload
    to be decoded. *)
Lemma frame_read payload data rest w :
  frame payload = Some data -> payload <> [] ->
  _header_complete (self w) = false -> _header_buf (self w) = [] ->
  _data_buf (self w) = [] -> socket w = data ++ rest ->
  JsonTcpClient._on_ready_read w =
    (complete_message ;; JsonTcpClient._on_ready_read)
      (payload_read payload rest w).
Proof.
  unfold frame. intros Hf Hp Hc Hb Hd Hs.
  destruct (pack_I (Z.of_nat (length payload))) as [header|] eqn:Hh; [|discriminate].
  injection Hf as <-. apply unpack_pack in Hh as [Hl Hu].
  unfold unpack_I in Hu. rewrite decide_True in Hu by exact Hl. injection Hu as Hu.
  destruct header as [|h0 [|h1 [|h2 [|h3 [|]]]]]; try discriminate.
  rewrite _on_ready_read_unfold, Hs. cbn [app].
  unfold bind at 1. rewrite body_header by exact Hc. cbv zeta.
  rewrite Hs, Hb. cbn [app firstn skipn length]. rewrite !take_0, !drop_0. cbn [length].
  rewrite decide_True by reflexivity.
  rewrite Hu.
  rewrite _on_ready_read_unfold. fields.
  destruct payload as [|p0 payload]; [congruence|]. cbn [app].
  unfold bind at 1. rewrite body_payload by (fields; try reflexivity; lia). cbv zeta.
  fields. rewrite Hd. rewrite Nat2Z.id. cbn [app].
  change (p0 :: payload ++ rest) with ((p0 :: payload) ++ rest).
  rewrite take_app_length, drop_app_length.
  rewrite decide_True by lia.
  unfold bind, payload_read. fields.
  rewrite Z.sub_diag.
  destruct w as [[] ? ? ? ? ?]. fields. subst. reflexivity.
Qed.

(** A payload that decodes is logged, dispatched, and the decoder reset. *)
Lemma complete_message_decoded w data obj :
  utf8_decode (_data_buf (self w)) = Some data -> json_loads data = Some obj ->
  complete_message w =
    (JsonTcpClient.dispatch obj ;;
     modify (with_header_complete false) ;;
     modify (with_data_buf []))
      (with_trace (trace w ++ [Log pyqode_client DEBUG (MsgResponseReceived obj)]) w).
Proof.
  intros Hu Hj. unfold complete_message.
  unfold or_raise, bind at 1. rewrite Hu. cbn [ret].
  unfold bind at 1. rewrite Hj. reflexivity.
Qed.

(** A payload that does not decode raises, and nothing is reset. *)
Lemma complete_message_malformed w :
  match utf8_decode (_data_buf (self w)) with
  | Some data => json_loads data = None
  | None => True
  end ->
  complete_message w =
    Raised (match utf8_decode (_data_buf (self w)) with
            | Some _ => ValueError
            | None => UnicodeDecodeError
            end) w.
Proof.
  intros Hm. unfold complete_message, or_raise, bind at 1.
  destruct (utf8_decode (_data_buf (self w))) as [data|]; [|reflexivity].
  cbn [ret]. unfold bind at 1. rewrite Hm. reflexivity.
Qed.

Section one_frame.
Variables (payload data rest : bytes) (t : text) (obj : json) (w : world).
Hypothesis Hframe : frame payload = Some data.
Hypothesis Hpayload : payload <> [].
Hypothesis Hmode : _header_complete (self w) = false.
Hypothesis Hheader : _header_buf (self w) = [].
Hypothesis Hdata : _data_buf (self w) = [].
Hypothesis Hsocket : socket w = data ++ rest.

(** A frame whose payload does not decode: the handler raises with
    the payload still buffered. *)
Lemma frame_malformed :
  match utf8_decode payload with
  | Some data => json_loads data = None
  | None => True
  end ->
  JsonTcpClient._on_ready_read w =
    Raised (match utf8_decode payload with
            | Some _ => ValueError
            | None => UnicodeDecodeError
            end) (payload_read payload rest w).
Proof using Hframe Hpayload Hmode Hheader Hdata Hsocket.
  intros Hm. rewrite (frame_read payload data rest) by assumption.
  unfold bind. rewrite complete_message_malformed by exact Hm. reflexivity.
Qed.

Hypothesis Hutf8 : utf8_decode payload = Some t.
Hypothesis Hjson : json_loads t = Some obj.

Let received := Log pyqode_client DEBUG (MsgResponseReceived obj).

(** A frame whose payload decodes: the message is logged and handed to
    [dispatch]. *)
Lemma frame_decoded :
  JsonTcpClient._on_ready_read w =
    (JsonTcpClient.dispatch obj ;;
     modify (with_header_complete false) ;;
     modify (with_data_buf []) ;;
     JsonTcpClient._on_ready_read)
      (with_trace (trace w ++ [received]) (payload_read payload rest w)).
Proof using Hframe Hpayload Hmode Hheader Hdata Hsocket Hutf8 Hjson.
  rewrite (frame_read payload data rest) by assumption.
  unfold bind at 1. rewrite (complete_message_decoded _ t obj) by assumption.
  unfold bind. destruct (JsonTcpClient.dispatch obj _); reflexivity.
Qed.

(** A decoded message that is no response, or a response to nobody,
    is logged and dropped. *)
Lemma frame_ignored :
  match response_fields obj with
  | Some (request_id, _, _) => unregistered request_id (_callbacks (self w))
  | None => True
  end ->
  JsonTcpClient._on_ready_read w =
    JsonTcpClient._on_ready_read (frame_handled rest [received] w).
Proof using Hframe Hpayload Hmode Hheader Hdata Hsocket Hutf8 Hjson.
  intros Hi. rewrite frame_decoded. unfold bind at 1.
  assert (Hd : forall w0, _callbacks (self w0) = _callbacks (self w) ->
            JsonTcpClient.dispatch obj w0 = Done tt w0).
  { intros w0 Hc.
    destruct (response_fields obj) as [[[request_id results] status]|] eqn:Hf.
    - rewrite (dispatch_fields _ _ _ _ _ Hf). rewrite Hc.
      destruct request_id as [| | | |s| |]; try reflexivity; try contradiction.
      cbn in Hi. rewrite Hi. reflexivity.
    - apply dispatch_no_fields, Hf. }
  rewrite Hd by reflexivity. unfold bind, modify, frame_handled, payload_read.
  f_equal. destruct w as [[] ? ? ? ? ?]. fields. subst. reflexivity.
Qed.

(** A response to a pending request: the callback is taken out of the
    table and called with the response's status and results. *)
Lemma frame_answered rid results status callback :
  response_fields obj = Some (JStr rid, results, status) ->
  _callbacks (self w) !! rid = Some callback ->
  JsonTcpClient._on_ready_read w =
    JsonTcpClient._on_ready_read
      (with_self (with_callbacks (delete rid (_callbacks (self w))))
         (frame_handled rest [received; Call callback status results] w)).
Proof using Hframe Hpayload Hmode Hheader Hdata Hsocket Hutf8 Hjson.
  intros Hf Hc. rewrite frame_decoded. unfold bind at 1.
  rewrite (dispatch_fields _ _ _ _ _ Hf). unfold payload_read. fields.
  rewrite Hc. unfold bind, modify, frame_handled.
  f_equal. destruct w as [[] ? ? ? ? ?]. fields. subst.
  rewrite <- app_assoc. reflexivity.
Qed.

(** A response whose identifier is a [list] or a [dict]: looking it
    up raises. *)
Lemma frame_unhashable request_id results status :
  response_fields obj = Some (request_id, results, status) ->
  match request_id with JList _ | JDict _ => True | _ => False end ->
  JsonTcpClient._on_ready_read w =
    Raised TypeError
      (with_trace (trace w ++ [received]) (payload_read payload rest w)).
Proof using Hframe Hpayload Hmode Hheader Hdata Hsocket Hutf8 Hjson.
  intros Hf Hu. rewrite frame_decoded. unfold bind at 1.
  rewrite (dispatch_fields _ _ _ _ _ Hf).
  destruct request_id; try contradiction; reflexivity.
Qed.
End one_frame.
End frames.

(** ** Reading traces *)

Lemma calls_app tr1 tr2 : calls (tr1 ++ tr2) = calls tr1 ++ calls tr2.
Proof.
induction tr1 as [|e tr1 IH]; [reflexivity|].
destruct e; cbn; rewrite IH; reflexivity.
Qed.

Lemma decoded_app tr1 tr2 : decoded (tr1 ++ tr2) = decoded tr1 ++ decoded tr2.
Proof.
induction tr1 as [|e tr1 IH]; [reflexivity|].
destruct e as [lg lv m| | | | | | | | | | |]; cbn; rewrite ?IH; try reflexivity.
destruct m; cbn; rewrite ?IH; reflexivity.
Qed.

Lemma attempts_app tr1 tr2 : attempts (tr1 ++ tr2) = (attempts tr1 + attempts tr2)%nat.
Proof.
induction tr1 as [|e tr1 IH]; [reflexivity|].
destruct e; cbn; rewrite IH; reflexivity.
Qed.

Lemma waits_app tr1 tr2 : waits (tr1 ++ tr2) = waits tr1 ++ waits tr2.
Proof.
induction tr1 as [|e tr1 IH]; [reflexivity|].
destruct e; cbn; rewrite IH; reflexivity.
Qed.

Lemma tracebacks_app tr1 tr2 : tracebacks (tr1 ++ tr2) = tracebacks tr1 ++ tracebacks tr2.
Proof.
induction tr1 as [|e tr1 IH]; [reflexivity|].
destruct e; cbn; rewrite IH; reflexivity.
Qed.

Lemma lines_app lg tr1 tr2 : lines lg (tr1 ++ tr2) = lines lg tr1 ++ lines lg tr2.
Proof.
induction tr1 as [|e tr1 IH]; [reflexivity|].
destruct e as [lg' lv m| | | | | | | | | | |]; cbn; rewrite ?IH; try reflexivity.
destruct m, lg, lg'; cbn; rewrite ?IH; reflexivity.
Qed.

(** ** Requests and their responses *)
Section router.
Context `{Runtime}.

(** [send] leaves the client as it is, and calls nobody. *)
Lemma send_keeps obj w w' :
  after (JsonTcpClient.send obj w) = Some w' ->
  self w' = self w /\ calls (trace w') = calls (trace w) /\ socket w' = socket w.
Proof.
unfold JsonTcpClient.send, write. run.
destruct (json_dumps obj) as [msg|]; [|intros [= <-]; fields; rewrite calls_app, app_nil_r; auto].
destruct (utf8_encode msg) as [raw|]; [|intros [= <-]; fields; rewrite calls_app, app_nil_r; auto].
destruct (pack_I (Z.of_nat (length raw))); intros [= <-]; fields;
  rewrite ?calls_app, ?app_nil_r; auto.
Qed.

(** [send] is loop free. *)
Lemma send_not_cut obj w : is_Some (after (JsonTcpClient.send obj w)).
Proof.
unfold JsonTcpClient.send, write. run.
destruct (json_dumps obj) as [msg|]; [|eauto].
destruct (utf8_encode msg) as [raw|]; [|eauto].
destruct (pack_I (Z.of_nat (length raw))); eauto.
Qed.

(** A request made with a callback leaves the callback pending under the
    request's identifier, whether or not the message could be sent. *)
Lemma request_work_registers wk args callback uuid4 w p :
  _process (self w) = Some p -> running p = true -> is_connected (self w) = true ->
  exists w', after (JsonTcpClient.request_work wk args (Some callback) uuid4 w) = Some w'
    /\ _callbacks (self w') = <[uuid4 := callback]> (_callbacks (self w))
    /\ calls (trace w') = calls (trace w)
    /\ _header_complete (self w') = _header_complete (self w)
    /\ _header_buf (self w') = _header_buf (self w)
    /\ _data_buf (self w') = _data_buf (self w)
    /\ socket w' = socket w.
Proof.
intros Hp Hr Hc. unfold JsonTcpClient.request_work.
unfold get at 1, bind at 1. rewrite Hp, Hr, Hc. cbn [negb orb].
unfold pass at 1, ret, bind at 1. unfold modify at 1, bind at 1.
match goal with |- context [JsonTcpClient.send ?o ?w0] =>
  destruct (send_not_cut o w0) as [w' Hw']; exists w'; split; [exact Hw'|];
  apply send_keeps in Hw' as (-> & -> & ->) end.
fields. auto 10.
Qed.

(** After a frame was handled at a frame boundary, the decoder is at a
    frame boundary again. *)
Lemma at_frame_boundary_handled events w :
  at_frame_boundary w -> at_frame_boundary (frame_handled [] events w).
Proof. unfold at_frame_boundary, frame_handled. fields. tauto. Qed.

(** A whole frame arriving at a frame boundary, when its payload is a
    response to a pending request. *)
Lemma receive_answered payload data t obj rid results status callback w :
  frame payload = Some data -> payload <> [] ->
  utf8_decode payload = Some t -> json_loads t = Some obj ->
  response_fields obj = Some (JStr rid, results, status) ->
  _callbacks (self w) !! rid = Some callback ->
  at_frame_boundary w ->
  receive data w =
    Some (with_self (with_callbacks (delete rid (_callbacks (self w))))
            (frame_handled []
               [Log pyqode_client DEBUG (MsgResponseReceived obj);
                Call callback status results] w)).
Proof.
intros Hf Hp Hu Hj Hr Hc (Hm & Hh & Hd & Hs).
unfold receive, run_slot. rewrite Hs. cbn [app].
rewrite (frame_answered payload data [] t obj (with_socket data w) Hf Hp Hm Hh Hd
           (eq_sym (app_nil_r data)) Hu Hj rid results status callback Hr Hc).
rewrite _on_ready_read_unfold. fields. unfold frame_handled. reflexivity.
Qed.

(** The same when the payload is no response, or a response to nobody. *)
Lemma receive_ignored payload data t obj w :
  frame payload = Some data -> payload <> [] ->
  utf8_decode payload = Some t -> json_loads t = Some obj ->
  match response_fields obj with
  | Some (request_id, _, _) => unregistered request_id (_callbacks (self w))
  | None => True
  end ->
  at_frame_boundary w ->
  receive data w =
    Some (frame_handled [] [Log pyqode_client DEBUG (MsgResponseReceived obj)] w).
Proof.
intros Hf Hp Hu Hj Hr (Hm & Hh & Hd & Hs).
unfold receive, run_slot. rewrite Hs. cbn [app].
rewrite (frame_ignored payload data [] t obj (with_socket data w) Hf Hp Hm Hh Hd
           (eq_sym (app_nil_r data)) Hu Hj Hr).
rewrite _on_ready_read_unfold. fields. unfold frame_handled. reflexivity.
Qed.

(** C8.  A request made with a callback leaves the callback pending under
    the request's identifier; when a response with that identifier then
    arrives, in any later state in which the callback is still pending,
    the callback is called once, with the status and the results of that
    response, and its entry is removed; a second response with the same
    identifier calls nobody. *)
Theorem callback_fires_exactly_once
    wk args callback uuid4 w p
    payload data t obj status results
    payload' data' t' obj' status' results' :
  _process (self w) = Some p -> running p = true ->
  is_connected (self w) = true -> at_frame_boundary w ->
  frame payload = Some data -> payload <> [] ->
  utf8_decode payload = Some t -> json_loads t = Some obj ->
  response_fields obj = Some (JStr uuid4, results, status) ->
  frame payload' = Some data' -> payload' <> [] ->
  utf8_decode payload' = Some t' -> json_loads t' = Some obj' ->
  response_fields obj' = Some (JStr uuid4, results', status') ->
  (exists w1,
      after (JsonTcpClient.request_work wk args (Some callback) uuid4 w) = Some w1
      /\ _callbacks (self w1) !! uuid4 = Some callback
      /\ at_frame_boundary w1)
  /\ (forall w1,
        _callbacks (self w1) !! uuid4 = Some callback -> at_frame_boundary w1 ->
        exists w2 w3,
          receive data w1 = Some w2
          /\ calls (trace w2) = calls (trace w1) ++ [(callback, status, results)]
          /\ _callbacks (self w2) = delete uuid4 (_callbacks (self w1))
          /\ receive data' w2 = Some w3
          /\ calls (trace w3) = calls (trace w2)
          /\ _callbacks (self w3) = _callbacks (self w2)).
Proof.
intros Hp Hr Hc Hb Hf Hn Hu Hj Hfields Hf' Hn' Hu' Hj' Hfields'. split.
- destruct (request_work_registers wk args callback uuid4 w p Hp Hr Hc)
    as (w1 & Hw1 & Hcb & _ & Hm & Hh & Hd & Hs).
  exists w1. split; [exact Hw1|]. split.
  + rewrite Hcb. apply lookup_insert_eq.
  + destruct Hb as (? & ? & ? & ?). unfold at_frame_boundary.
    rewrite Hm, Hh, Hd, Hs. auto.
- intros w1 Hcb Hb1.
  eexists _, _. split; [exact (receive_answered _ _ _ _ _ _ _ _ _ Hf Hn Hu Hj Hfields Hcb Hb1)|].
  split; [unfold frame_handled; fields; rewrite calls_app; reflexivity|].
  split; [reflexivity|].
  split.
  + apply (receive_ignored payload' data' t' obj'); try assumption.
    * rewrite Hfields'. cbn. apply lookup_delete_eq.
    * destruct Hb1 as (? & ? & ? & ?). unfold at_frame_boundary, frame_handled.
      fields. auto.
  + unfold frame_handled. fields. rewrite !calls_app. cbn. rewrite app_nil_r. auto.
Qed.
End router.

(** ** Starting and closing *)
Section facade.
Context `{Runtime}.

(** A decoded message that lacks one of the three response fields, or
    whose request identifier is a scalar with no pending callback (see
    [unregistered]), is dropped: [dispatch] returns without raising and
    leaves the whole client, the pending callbacks included, and the
    trace as they were. *)
Theorem unregistered_response_ignored obj w :
  match response_fields obj with
  | Some (request_id, _, _) => unregistered request_id (_callbacks (self w))
  | None => True
  end ->
  JsonTcpClient.dispatch obj w = Done tt w.
Proof.
intros Hi.
destruct (response_fields obj) as [[[request_id results] status]|] eqn:Hf.
- rewrite (dispatch_fields _ _ _ _ _ Hf).
  destruct request_id as [| | | |s| |]; try reflexivity; try contradiction.
  cbn in Hi. rewrite Hi. reflexivity.
- apply dispatch_no_fields, Hf.
Qed.

(** [_terminate_server_process] returns, calls no callback and leaves
    the callback table alone. *)
Lemma terminate_keeps w :
  exists w', JsonTcpClient._terminate_server_process w = Done tt w'
    /\ _callbacks (self w') = _callbacks (self w)
    /\ calls (trace w') = calls (trace w).
Proof.
unfold JsonTcpClient._terminate_server_process, ServerProcess.terminate,
  ServerProcess.waitForFinished, ServerProcess.set_running. run.
destruct (_process (self w)) as [[[]]|] eqn:Hp; eexists; (split; [reflexivity|]);
  fields; rewrite ?calls_app, ?app_nil_r; auto.
Qed.

(** C3, as the code has it.  [close] calls no callback and leaves the
    pending-callback table exactly as it was: a callback pending before
    [close] is still pending after it. *)
Theorem close_keeps_callbacks w :
  exists w', after (JsonTcpClient.close w) = Some w'
    /\ _callbacks (self w') = _callbacks (self w)
    /\ calls (trace w') = calls (trace w).
Proof.
unfold JsonTcpClient.close. unfold get at 1, bind at 1.
assert (Hrest : forall w0,
  exists w', after ((QTcpSocket_close ;; JsonTcpClient._terminate_server_process ;;
                     modify (with_is_connected false)) w0) = Some w'
    /\ _callbacks (self w') = _callbacks (self w0)
    /\ calls (trace w') = calls (trace w0)).
{ intros w0. unfold QTcpSocket_close, emit. unfold bind at 1.
  destruct (terminate_keeps (with_trace (trace w0 ++ [SocketClose]) w0))
    as (w1 & Hw1 & Hc & Ht).
  unfold bind at 1. rewrite Hw1. unfold modify. cbn [after]. eexists. split; [reflexivity|].
  fields. rewrite Hc, Ht. fields. rewrite calls_app, app_nil_r. auto. }
destruct (is_connected (self w)) eqn:Hc.
- destruct (_process (self w)) as [p|] eqn:Hp.
  + unfold ret at 1, bind at 1. destruct (running p).
    * destruct (send_not_cut (JStr (T "shutdown")) w) as [w1 Hw1].
      pose proof (send_keeps _ _ _ Hw1) as (Hs & Hcalls & _).
      unfold bind at 1.
      destruct (JsonTcpClient.send (JStr (T "shutdown")) w) as [[] w1'|e w1'|];
        cbn [after] in Hw1; try discriminate; injection Hw1 as ->.
      -- destruct (Hrest w1) as (w' & Hw' & Hc' & Ht'). exists w'.
         rewrite Hw', Hc', Ht', Hs, Hcalls. auto.
      -- exists w1. cbn [after]. rewrite Hs, Hcalls. auto.
    * unfold pass, ret, bind at 1. apply Hrest.
  + exists w. cbn. auto.
- unfold ret at 1, bind at 1. unfold pass, ret, bind at 1. apply Hrest.
Qed.

(** C10.  On a client that was never started (no process object, socket
    not connected) [close] returns normally, and all it does is close the
    socket: nothing is written to it, and nothing is asked of a process. *)
Theorem close_never_started w :
  _process (self w) = None -> is_connected (self w) = false ->
  JsonTcpClient.close w =
    Done tt (with_self (with_is_connected false)
               (with_trace (trace w ++ [SocketClose]) w)).
Proof.
intros Hp Hc. unfold JsonTcpClient.close, JsonTcpClient._terminate_server_process,
  QTcpSocket_close. run. rewrite Hc. fields. rewrite Hp. reflexivity.
Qed.

(** C6.  [start] with a script path that does not exist fails at once
    with the assertion error of its [assert]: before it, the method has
    only written a debug line; no process object is made, no port is
    picked, nothing is started, and the client is left as it was. *)
Theorem start_missing_script server_script interpreter args free_port w :
  path_exists server_script = false ->
  JsonTcpClient.start server_script interpreter args free_port w =
    Raised AssertionError
      (with_trace (trace w ++ [Log pyqode_client DEBUG MsgRunningWithPython]) w).
Proof.
intros He. unfold JsonTcpClient.start. run. rewrite He. reflexivity.
Qed.

End facade.

(** ** Connecting *)
Section connecting.
Context `{Runtime}.

(** The entry of [SOCKET_ERROR_STRINGS] for a refused connection. *)
Lemma lookup_refused :
  lookup_error ConnectionRefusedError SOCKET_ERROR_STRINGS =
    Some "the connection was refused by the peer (or timed out)."%string.
Proof. reflexivity. Qed.

(** [_on_error] on a refused connection: retry while the budget lasts,
    raise once it is spent. *)
Lemma _on_error_refused w :
  JsonTcpClient._on_error ConnectionRefusedError w =
    let w' := with_trace
                (trace w ++ [Log pyqode_client ERROR
                               (MsgSocketError 0 "the connection was refused by the peer (or timed out).")]) w in
    if decide (_connection_attempts (self w) < MAX_RETRY)
    then Done tt (with_timers (timers w ++ [(TIMEOUT_BEFORE_RETRY, slot_connect)]) w')
    else Raised RuntimeError w'.
Proof.
unfold JsonTcpClient._on_error. rewrite lookup_refused. cbv zeta.
rewrite lookup_refused. unfold singleShot. run.
rewrite decide_True by reflexivity. fields. case_decide; reflexivity.
Qed.

(** One refused attempt: the pending timer fires, [_connect] counts the
    attempt and calls [connectToHost], and the refusal reaches
    [_on_error]. *)
Lemma refused_once delay w :
  timers w = [(delay, slot_connect)] ->
  exists w1 w2,
    fire_timer w = Some w1
    /\ run_slot (JsonTcpClient._on_error ConnectionRefusedError) w1 = Some w2
    /\ _connection_attempts (self w2) = _connection_attempts (self w) + 1
    /\ attempts (trace w2) = S (attempts (trace w))
    /\ waits (trace w2) = waits (trace w) ++ [delay]
    /\ (if decide (_connection_attempts (self w) + 1 < MAX_RETRY)
        then timers w2 = [(TIMEOUT_BEFORE_RETRY, slot_connect)]
             /\ tracebacks (trace w2) = tracebacks (trace w)
        else timers w2 = []
             /\ tracebacks (trace w2) = tracebacks (trace w) ++ [RuntimeError]
             /\ last (trace w2) = Some (Traceback RuntimeError)).
Proof.
intros Ht. unfold fire_timer. rewrite Ht.
unfold run_slot at 1, JsonTcpClient._connect, connectToHost. run. fields.
destruct (decide (_connection_attempts (self w) + 1 < MAX_RETRY)) as [Hlt|Hge];
  eexists; eexists; (split; [reflexivity|]);
  unfold run_slot; rewrite _on_error_refused; cbv zeta; fields.
- rewrite decide_True by exact Hlt.
  split; [reflexivity|]. fields. rewrite !attempts_app, !tracebacks_app, !waits_app. cbn.
  rewrite !app_nil_r. repeat split; lia.
- rewrite decide_False by exact Hge.
  split; [reflexivity|]. fields.
  rewrite !attempts_app, !tracebacks_app, !waits_app, last_snoc. cbn.
  rewrite !app_nil_r. repeat split; lia.
Qed.

(** With a timer pending and [k + 1] attempts left in the budget, the
    refusals go on for exactly [k + 1] attempts and end in [RuntimeError]. *)
Lemma refused_until_exhausted k : forall delay w n,
  timers w = [(delay, slot_connect)] ->
  _connection_attempts (self w) = MAX_RETRY - Z.of_nat (S k) ->
  (S k <= n)%nat ->
  exists w',
    refuse_connections n w = Some w'
    /\ attempts (trace w') = (attempts (trace w) + S k)%nat
    /\ waits (trace w') = waits (trace w) ++ delay :: replicate k TIMEOUT_BEFORE_RETRY
    /\ tracebacks (trace w') = tracebacks (trace w) ++ [RuntimeError]
    /\ last (trace w') = Some (Traceback RuntimeError)
    /\ timers w' = []
    /\ _connection_attempts (self w') = MAX_RETRY.
Proof.
induction k as [|k IH]; intros delay w n Ht Ha Hn;
  (destruct n as [|n]; [lia|]);
  destruct (refused_once delay w Ht) as (w1 & w2 & H1 & H2 & Hc & Hat & Hwt & Hif);
  cbn [refuse_connections]; rewrite Ht, H1, H2.
- rewrite decide_False in Hif by lia. destruct Hif as (Ht2 & Htb & Hl).
  exists w2. split; [destruct n; cbn; rewrite ?Ht2; reflexivity|].
  repeat split; try assumption; lia.
- rewrite decide_True in Hif by lia. destruct Hif as (Ht2 & Htb).
  destruct (IH _ w2 n Ht2) as (w' & Hr & Hat' & Hwt' & Htb' & Hl & Ht' & Hc'); [lia | lia |].
  exists w'. split; [exact Hr|]. rewrite Hat', Hwt', Htb', Hat, Hwt, Htb, <- app_assoc.
  repeat split; try assumption; lia.
Qed.

(** C2.  After the worker process has started, and with every connection
    attempt refused, the client makes exactly [MAX_RETRY] = 100 attempts,
    each fired by a timer of [TIMEOUT_BEFORE_RETRY] = 100 ms (a hundred
    timers fire in all); the hundredth refusal raises [RuntimeError] and
    arms no timer, so that no further attempt follows however long the
    refusals would go on, and any later refusal raises again without
    arming one. *)
Theorem retry_budget w n :
  _connection_attempts (self w) = 0 -> timers w = [] ->
  (100 <= n)%nat ->
  exists w1 w',
    process_started w = Some w1
    /\ timers w1 = [(100, slot_connect)]
    /\ refuse_connections n w1 = Some w'
    /\ attempts (trace w') = (attempts (trace w) + 100)%nat
    /\ waits (trace w') = waits (trace w) ++ replicate 100 100
    /\ tracebacks (trace w') = tracebacks (trace w) ++ [RuntimeError]
    /\ last (trace w') = Some (Traceback RuntimeError)
    /\ timers w' = []
    /\ (forall m, refuse_connections m w' = Some w')
    /\ (exists w'', JsonTcpClient._on_error ConnectionRefusedError w' = Raised RuntimeError w''
                    /\ timers w'' = []).
Proof.
intros Ha Ht Hn.
unfold process_started, run_slot, ServerProcess._on_process_started,
  ServerProcess.set_running, JsonTcpClient._on_process_started, singleShot. run. fields.
eexists. match goal with |- exists w', Some ?w1 = _ /\ _ =>
  destruct (refused_until_exhausted 99 TIMEOUT_BEFORE_RETRY w1 n)
    as (w' & Hr & Hat & Hwt & Htb & Hl & Ht' & Hc');
  [fields; rewrite Ht; reflexivity | fields; rewrite Ha; reflexivity | lia |] end.
exists w'. split; [reflexivity|]. split; [fields; rewrite Ht; reflexivity|].
split; [exact Hr|]. fields. rewrite attempts_app, tracebacks_app, waits_app in *.
cbn in Hat, Htb, Hwt. rewrite app_nil_r in Htb, Hwt.
split; [rewrite Hat; change (S 99) with 100%nat; lia|].
split; [exact Hwt|].
split; [exact Htb|]. split; [exact Hl|]. split; [exact Ht'|].
split.
- intros [|m]; cbn; rewrite ?Ht'; reflexivity.
- rewrite _on_error_refused. cbv zeta. rewrite decide_False by (rewrite Hc'; unfold MAX_RETRY; lia).
  eexists. split; [reflexivity|]. fields. exact Ht'.
Qed.

(** C5, as the code has it.  [_on_error] logs every socket error at error
    level.  It returns normally except for a refused connection with the
    retry budget spent, for which it raises [RuntimeError] out of the
    slot.  [request_work] without a running process or a connection
    raises [NotConnectedError] to its caller and changes nothing. *)
Theorem error_propagation code w wk args on_receive uuid4 :
  match JsonTcpClient._on_error code w with
  | Done _ w' =>
      (code <> ConnectionRefusedError \/ _connection_attempts (self w) < MAX_RETRY)
      /\ exists c d, trace w' = trace w ++ [Log pyqode_client ERROR (MsgSocketError c d)]
  | Raised e w' =>
      e = RuntimeError /\ code = ConnectionRefusedError
      /\ MAX_RETRY <= _connection_attempts (self w)
      /\ exists c d, trace w' = trace w ++ [Log pyqode_client ERROR (MsgSocketError c d)]
  | OutOfFuel => False
  end
  /\ (if ready (self w) then True
      else JsonTcpClient.request_work wk args on_receive uuid4 w = Raised NotConnectedError w).
Proof.
split.
- destruct (decide (code = ConnectionRefusedError)) as [->|Hne].
  + rewrite _on_error_refused. cbv zeta. case_decide; fields; eauto 10 with lia.
  + unfold JsonTcpClient._on_error.
    destruct (lookup_error code SOCKET_ERROR_STRINGS) as [d|] eqn:Hd.
    * cbv zeta. rewrite Hd. run. rewrite decide_False by exact Hne. fields. eauto 10.
    * cbv zeta. change (lookup_error (-1) SOCKET_ERROR_STRINGS)
        with (Some "an unidentified error occurred."%string).
      run. rewrite decide_False by discriminate. fields. eauto 10.
- unfold ready, JsonTcpClient.request_work. run.
  destruct (_process (self w)) as [[[]]|]; cbn; try exact I; try reflexivity.
  destruct (is_connected (self w)); cbn; [exact I | reflexivity].
Qed.
End connecting.

(** ** The output of the worker process *)

Lemma rfind_absent s c : c ∉ s -> rfind s c = -1.
Proof.
induction s as [|x s IH]; intros Hc; [reflexivity|].
cbn [rfind]. rewrite IH by set_solver. cbn.
destruct (N.eqb_spec x c); [set_solver | reflexivity].
Qed.

(** [rfind] finds the last occurrence. *)
Lemma rfind_last pre post c :
  c ∉ post -> rfind (pre ++ c :: post) c = Z.of_nat (length pre).
Proof.
intros Hc. induction pre as [|x pre IH].
- cbn [app rfind length]. rewrite rfind_absent by exact Hc. cbn.
  now rewrite N.eqb_refl.
- cbn [app rfind length]. rewrite IH.
  destruct (Z.leb_spec 0 (Z.of_nat (length pre))); lia.
Qed.

(** Slicing up to the length of a prefix gives the prefix. *)
Lemma slice_to_prefix {A} (pre post : list A) :
  slice_to (pre ++ post) (Z.of_nat (length pre)) = pre.
Proof.
unfold slice_to. destruct (Z.leb_spec 0 (Z.of_nat (length pre))); [|lia].
rewrite Nat2Z.id. apply take_app_length.
Qed.

(** Logging each line of a list adds one record per line to the trace. *)
Lemma for_each_log lg lv ls w :
  for_each ls (fun l => log lg lv (MsgLine l)) w =
    Done tt (with_trace (trace w ++ map (fun l => Log lg lv (MsgLine l)) ls) w).
Proof.
revert w. induction ls as [|l ls IH]; intros w.
- cbn. rewrite app_nil_r. destruct w; reflexivity.
- cbn [for_each map]. unfold bind, log, emit. rewrite IH. fields.
  rewrite <- app_assoc. reflexivity.
Qed.

(** Text without a line boundary is taken into the current line. *)
Lemma splitlines_from_one_line cur l rest :
  one_line l -> splitlines_from cur (l ++ rest) = splitlines_from (cur ++ l) rest.
Proof.
intros Hl. revert cur. induction Hl as [|c l Hc Hl IH]; intros cur.
- now rewrite app_nil_r.
- cbn [app splitlines_from]. rewrite Hc, IH, <- app_assoc. reflexivity.
Qed.

(** A newline ends the current line. *)
Lemma splitlines_from_LF cur rest :
  splitlines_from cur (LF :: rest) = cur :: splitlines_from [] rest.
Proof. destruct rest; reflexivity. Qed.

(** Lines ended by a newline each, followed by a last line that is not:
    [splitlines] gives them back, the last one unless it is empty. *)
Lemma splitlines_of_lines ls l :
  Forall one_line ls -> one_line l ->
  splitlines (concat (map (fun x => x ++ [LF]) ls) ++ l) =
    ls ++ match l with [] => [] | _ => [l] end.
Proof.
intros Hls Hl. unfold splitlines. induction Hls as [|x ls Hx Hls IH].
- cbn [map concat app]. rewrite <- (app_nil_r l) at 1.
  rewrite splitlines_from_one_line by exact Hl. cbn. reflexivity.
- cbn [map concat]. rewrite <- !app_assoc.
  rewrite splitlines_from_one_line by exact Hx. cbn [app].
  rewrite splitlines_from_LF, IH. reflexivity.
Qed.

Section output.
Context `{Runtime}.

(** C7, as the code has it.  Each read of the worker's output is handled
    on its own.  When the text read contains a newline, the text before
    the last newline is split into lines and each line is logged on the
    server logger, at debug level for the standard output and at error
    level for the standard error; nothing is kept for the next read. *)
Theorem output_lines_forwarded data pre post w :
  stdout w = [] -> stderr w = [] ->
  utf8_decode data = Some (pre ++ LF :: post) -> LF ∉ post ->
  process_prints data w =
    Some (with_trace
            (trace w ++ map (fun l => Log pyqode_server DEBUG (MsgLine l)) (splitlines pre)) w)
  /\ process_complains data w =
    Some (with_trace
            (trace w ++ map (fun l => Log pyqode_server ERROR (MsgLine l)) (splitlines pre)) w).
Proof.
intros Ho He Hu Hl.
unfold process_prints, process_complains, run_slot,
  ServerProcess._on_process_stdout_ready, ServerProcess._on_process_stderr_ready,
  readAllStandardOutput, readAllStandardError.
unfold bind at 1 3. fields. rewrite Ho, He. cbn [app].
unfold or_raise, bind at 1 2. rewrite Hu. unfold ret.
rewrite rfind_last by exact Hl. rewrite slice_to_prefix.
rewrite !for_each_log. fields.
split; f_equal; destruct w; fields; subst; reflexivity.
Qed.
End output.

(** ** Payloads that do not decode *)
Section malformed.
Context `{Runtime}.

(** Once wedged, the handler raises whenever there is something to read,
    logs nothing, calls nobody, and stays wedged. *)
Lemma wedged_raises w :
  wedged w -> socket w <> [] ->
  exists w', JsonTcpClient._on_ready_read w = Raised ValueError w'
    /\ wedged w' /\ trace w' = trace w
    /\ _callbacks (self w') = _callbacks (self w).
Proof.
intros (Hc & Hr & Hd) Hs.
rewrite _on_ready_read_unfold. destruct (socket w) as [|b l] eqn:Es; [congruence|].
unfold bind. destruct (Z.lt_ge_cases (_to_read (self w)) 0) as [Hn|Hn].
- rewrite body_negative by assumption. exists w. unfold wedged. auto.
- assert (Hz : _to_read (self w) = 0) by lia.
  rewrite body_payload by assumption. cbv zeta. rewrite Hz, Es.
  change (Z.to_nat 0) with 0%nat. rewrite take_0, drop_0, app_nil_r.
  assert (Hlen : (0 < length (_data_buf (self w)))%nat).
  { destruct (_data_buf (self w)); [congruence | cbn; lia]. }
  rewrite decide_False by lia.
  rewrite _on_ready_read_unfold. fields. unfold bind.
  rewrite body_negative by (fields; first [assumption | lia]).
  eexists. split; [reflexivity|]. unfold wedged. fields.
  repeat split; [assumption | lia | assumption].
Qed.

(** A read that reaches a wedged decoder decodes nothing and leaves it
    wedged. *)
Lemma receive_wedged data w :
  wedged w ->
  exists w', receive data w = Some w' /\ wedged w'
    /\ decoded (trace w') = decoded (trace w)
    /\ calls (trace w') = calls (trace w)
    /\ _callbacks (self w') = _callbacks (self w).
Proof.
intros Hw. unfold receive, run_slot.
destruct (socket w ++ data) as [|b l] eqn:Es.
- rewrite _on_ready_read_unfold. fields. exists (with_socket [] w). auto.
- destruct (wedged_raises (with_socket (b :: l) w)) as (w' & Hr & Hw' & Ht & Hc);
    [exact Hw | discriminate |].
  rewrite Hr. eexists. split; [reflexivity|].
  fields. rewrite Ht, decoded_app, calls_app, !app_nil_r. fields. auto.
Qed.

(** So does any number of reads. *)
Lemma receive_all_wedged chunks : forall w,
  wedged w ->
  exists w', receive_all chunks w = Some w' /\ wedged w'
    /\ decoded (trace w') = decoded (trace w)
    /\ calls (trace w') = calls (trace w)
    /\ _callbacks (self w') = _callbacks (self w).
Proof.
induction chunks as [|data chunks IH]; intros w Hw.
- exists w. auto.
- destruct (receive_wedged data w Hw) as (w1 & Hr & Hw1 & Hd & Hc & Hk).
  destruct (IH w1 Hw1) as (w2 & Hr2 & Hw2 & Hd2 & Hc2 & Hk2).
  exists w2. cbn [receive_all]. rewrite Hr. split; [exact Hr2|].
  rewrite Hd2, Hc2, Hk2. auto.
Qed.

(** C4, as the code has it.  When a complete payload is not valid UTF-8
    JSON, the decode error leaves the handler as an exception and the
    client logs nothing; the payload stays buffered, the decoder stays in
    payload mode, and what follows the frame in the same read stays
    unread.  No read that comes later decodes or dispatches anything. *)
Theorem malformed_payload_wedges payload data rest chunks w :
  at_frame_boundary w ->
  frame payload = Some data -> payload <> [] ->
  match utf8_decode payload with
  | Some t => json_loads t = None
  | None => True
  end ->
  exists w1 w2,
    receive (data ++ rest) w = Some w1
    /\ trace w1 = trace w ++ [Traceback (match utf8_decode payload with
                                         | Some _ => ValueError
                                         | None => UnicodeDecodeError
                                         end)]
    /\ _header_complete (self w1) = true
    /\ _data_buf (self w1) = payload
    /\ socket w1 = rest
    /\ receive_all chunks w1 = Some w2
    /\ decoded (trace w2) = decoded (trace w)
    /\ calls (trace w2) = calls (trace w)
    /\ wedged w2.
Proof.
intros (Hm & Hh & Hd & Hs) Hf Hp Hbad.
unfold receive at 1, run_slot. rewrite Hs. cbn [app].
rewrite (frame_malformed payload data rest (with_socket (data ++ rest) w)
           Hf Hp Hm Hh Hd eq_refl Hbad).
set (w1 := with_trace _ _).
assert (Hw1 : wedged w1).
{ unfold wedged, w1, payload_read. fields. repeat split; [lia | exact Hp]. }
destruct (receive_all_wedged chunks w1 Hw1) as (w2 & Hr & Hw2 & Hd2 & Hc2 & _).
exists w1, w2. split; [reflexivity|].
unfold w1, payload_read in *. fields.
rewrite decoded_app, calls_app, !app_nil_r in *. auto 10.
Qed.
End malformed.

(** ** Frames delivered whole *)
Section whole_frames.
Context `{Runtime}.

(** A whole, well-formed frame at hand is decoded and dispatched, and
    the decoder is back at the header of what follows. *)
Lemma frame_dispatched payload data rest obj w :
  frame payload = Some data -> decodes_to payload obj ->
  _header_complete (self w) = false -> _header_buf (self w) = [] ->
  _data_buf (self w) = [] -> socket w = data ++ rest ->
  exists w',
    JsonTcpClient._on_ready_read w = JsonTcpClient._on_ready_read w'
    /\ _header_complete (self w') = false /\ _header_buf (self w') = []
    /\ _data_buf (self w') = [] /\ socket w' = rest
    /\ decoded (trace w') = decoded (trace w) ++ [obj]
    /\ tracebacks (trace w') = tracebacks (trace w).
Proof.
intros Hf (Hp & (t & Hu & Hj) & Hh) Hm Hb Hd Hs.
unfold hashable_id in Hh.
destruct (response_fields obj) as [[[request_id results] status]|] eqn:Hr.
- destruct request_id as [| | | |s| |]; try contradiction.
  5: destruct (_callbacks (self w) !! s) as [callback|] eqn:Hc.
  5: { eexists. split.
       - exact (frame_answered payload data rest t obj w Hf Hp Hm Hb Hd Hs Hu Hj
                  s results status callback Hr Hc).
       - unfold frame_handled. fields.
         rewrite decoded_app, tracebacks_app. cbn. rewrite app_nil_r. auto 10. }
  all: eexists; (split;
    [ apply (frame_ignored payload data rest t obj w Hf Hp Hm Hb Hd Hs Hu Hj);
      rewrite Hr; cbn; auto
    | unfold frame_handled; fields;
      rewrite decoded_app, tracebacks_app; cbn; rewrite app_nil_r; auto 10 ]).
- eexists. split.
  + apply (frame_ignored payload data rest t obj w Hf Hp Hm Hb Hd Hs Hu Hj).
    rewrite Hr. exact I.
  + unfold frame_handled. fields.
    rewrite decoded_app, tracebacks_app. cbn. rewrite app_nil_r. auto 10.
Qed.

(** Whole, well-formed frames at hand are decoded one after the other. *)
Lemma frames_dispatched payloads objs :
  Forall2 decodes_to payloads objs ->
  forall data w,
    frames payloads = Some data ->
    _header_complete (self w) = false -> _header_buf (self w) = [] ->
    _data_buf (self w) = [] -> socket w = data ->
    exists w',
      JsonTcpClient._on_ready_read w = Done tt w'
      /\ at_frame_boundary w'
      /\ decoded (trace w') = decoded (trace w) ++ objs
      /\ tracebacks (trace w') = tracebacks (trace w).
Proof.
induction 1 as [|payload obj payloads objs Hd HF IH]; intros data w Hf Hm Hb Hdb Hs.
- injection Hf as <-. exists w. rewrite _on_ready_read_unfold, Hs, app_nil_r.
  unfold at_frame_boundary. auto 10.
- cbn [frames] in Hf.
  destruct (frame payload) as [d|] eqn:Hd1; [|discriminate].
  destruct (frames payloads) as [d'|] eqn:Hd2; [|discriminate].
  injection Hf as <-.
  destruct (frame_dispatched payload d d' obj w Hd1 Hd Hm Hb Hdb Hs)
    as (w1 & Hr & Hm1 & Hb1 & Hdb1 & Hs1 & Hdec & Htb).
  destruct (IH d' w1 eq_refl Hm1 Hb1 Hdb1 Hs1) as (w' & Hr' & Hbd & Hdec' & Htb').
  exists w'. rewrite Hr, Hr', Hdec', Htb', Hdec, Htb, <- app_assoc. auto.
Qed.

End whole_frames.

(** ** How a read ends *)
Section read_ends.
Context `{Runtime}.

(** Decoding and dispatching leave the client's attributes alone when
    they raise. *)
Lemma complete_message_raised w e w' :
  complete_message w = Raised e w' -> self w' = self w.
Proof.
unfold complete_message. unfold or_raise at 1. unfold bind at 1.
destruct (utf8_decode (_data_buf (self w))) as [data|]; [|intros [= _ <-]; reflexivity].
cbn. unfold or_raise at 1. unfold bind at 1.
destruct (json_loads data) as [obj|]; [|intros [= _ <-]; reflexivity].
cbn. unfold bind at 1.
destruct (JsonTcpClient.dispatch obj _) as [[] w1|e1 w1|] eqn:Hd; try discriminate.
apply dispatch_raises in Hd as [_ ->]. intros [= _ <-]. reflexivity.
Qed.

(** A turn of the loop raises in payload mode only, with nothing left
    to read of the payload. *)
Lemma body_raised w e w' :
  JsonTcpClient._on_ready_read_body w = Raised e w' ->
  _header_complete (self w') = true /\ _to_read (self w') <= 0.
Proof.
destruct (_header_complete (self w)) eqn:Hc.
- destruct (Z.lt_ge_cases (_to_read (self w)) 0).
  + rewrite body_negative by assumption. intros [= _ <-]. split; [exact Hc | lia].
  + rewrite body_payload by assumption. cbv zeta.
    case_decide as Hz; [|discriminate].
    intros Hr. apply complete_message_raised in Hr. rewrite Hr. fields.
    split; [exact Hc | lia].
- rewrite body_header by assumption. cbv zeta. case_decide; discriminate.
Qed.

(** X1.  [_on_ready_read] always comes to an end.  When it returns, the
    socket has nothing left to read.  When it raises, whatever the
    exception, it does so in payload mode: the decoder is left with
    [_header_complete] set and [_to_read] at zero or below. *)
Theorem ready_read_ends w :
  match JsonTcpClient._on_ready_read w with
  | Done _ w' => socket w' = []
  | Raised _ w' => _header_complete (self w') = true /\ _to_read (self w') <= 0
  | OutOfFuel => False
  end.
Proof.
assert (Hn : forall n w0, (turns_left w0 < n)%nat ->
  match JsonTcpClient._on_ready_read w0 with
  | Done _ w' => socket w' = []
  | Raised _ w' => _header_complete (self w') = true /\ _to_read (self w') <= 0
  | OutOfFuel => False
  end).
{ induction n as [|n IH]; intros w0 Hlt; [lia|].
  rewrite _on_ready_read_unfold. destruct (socket w0) as [|b l] eqn:Hs; [exact Hs|].
  unfold bind. destruct (JsonTcpClient._on_ready_read_body w0) as [[] w1|e w1|] eqn:Hb.
  - apply IH. apply body_decreases in Hb; [lia | rewrite Hs; discriminate].
  - exact (body_raised _ _ _ Hb).
  - exact (body_not_cut _ Hb). }
exact (Hn (S (turns_left w)) w (Nat.lt_succ_diag_r _)).
Qed.
End read_ends.
(** ** Frames that arrive in pieces *)
Section pieces.
Context `{Runtime}.

(** With bytes to read, the loop takes a turn. *)
Lemma _on_ready_read_step w :
  socket w <> [] ->
  JsonTcpClient._on_ready_read w =
    (JsonTcpClient._on_ready_read_body ;; JsonTcpClient._on_ready_read) w.
Proof.
intros Hs. rewrite _on_ready_read_unfold. destruct (socket w); [done | reflexivity].
Qed.

(** A header read at a frame boundary, with the first bytes of the
    payload (or none) behind it: the declared length is taken, the bytes
    are buffered, and the decoder waits for the rest. *)
Lemma header_received header p1 len w :
  at_frame_boundary w -> pack_I len = Some header ->
  (p1 <> [] -> Z.of_nat (length p1) < len) ->
  receive (header ++ p1) w =
    Some (with_self (with_to_read (len - Z.of_nat (length p1)))
            (with_self (with_data_buf p1)
               (with_self (with_header_complete true) w))).
Proof.
intros (Hm & Hh & Hd & Hs) Hp Hlt.
apply unpack_pack in Hp as [Hl Hu].
unfold unpack_I in Hu. rewrite decide_True in Hu by exact Hl. injection Hu as Hu.
unfold receive, run_slot. rewrite Hs. cbn [app].
rewrite _on_ready_read_unfold. fields.
destruct header as [|h0 [|h1 [|h2 [|h3 [|]]]]]; try discriminate.
cbn [app]. unfold bind at 1. rewrite body_header by exact Hm. cbv zeta.
fields. rewrite Hh. cbn [app firstn skipn length]. rewrite !take_0, !drop_0. cbn [length].
rewrite decide_True by reflexivity. rewrite Hu.
rewrite _on_ready_read_unfold. fields.
destruct p1 as [|b p1].
- destruct w as [[] ? ? ? ? ?]. fields. subst. rewrite Z.sub_0_r. reflexivity.
- specialize (Hlt ltac:(discriminate)).
  unfold bind at 1. rewrite body_payload by (fields; try reflexivity; lia). cbv zeta.
  fields. rewrite Hd. cbn [app].
  rewrite take_ge, drop_ge by lia.
  rewrite decide_False by lia.
  rewrite _on_ready_read_unfold. fields.
  destruct w as [[] ? ? ? ? ?]. fields. subst. reflexivity.
Qed.

(** X6.  A frame cut exactly between its header and its payload is
    handled as the whole frame is: the header read leaves the decoder
    waiting for the payload, and the payload read completes it. *)
Theorem header_and_payload_apart payload header w :
  at_frame_boundary w ->
  pack_I (Z.of_nat (length payload)) = Some header -> payload <> [] ->
  receive_all [header; payload] w = receive (header ++ payload) w.
Proof.
intros Hb Hp Hn. pose proof Hb as (Hm & Hh & Hd & Hs).
assert (Hlen : (0 < length payload)%nat) by (destruct payload; [done | cbn; lia]).
cbn [receive_all].
assert (Hr := header_received header [] (Z.of_nat (length payload)) w Hb Hp).
cbn [length] in Hr. specialize (Hr ltac:(done)).
replace (Z.of_nat (length payload) - Z.of_nat 0) with (Z.of_nat (length payload)) in Hr by lia.
rewrite app_nil_r in Hr. rewrite Hr. clear Hr.
assert (Hf : frame payload = Some (header ++ payload)) by (unfold frame; now rewrite Hp).
unfold receive, run_slot. rewrite Hs. fields. rewrite Hs. cbn [app].
rewrite (frame_read payload (header ++ payload) [] (with_socket (header ++ payload) w)
           Hf Hn Hm Hh Hd (eq_sym (app_nil_r _))).
rewrite _on_ready_read_unfold. fields.
destruct payload as [|b payload]; [done|].
unfold bind at 1. rewrite body_payload by (fields; try reflexivity; lia). cbv zeta.
fields. rewrite Nat2Z.id, take_ge, drop_ge by lia. rewrite app_nil_l.
rewrite decide_True by lia.
unfold payload_read. fields.
match goal with |- context [complete_message ?a] =>
  match goal with |- _ = match (_ ;; _) ?b with _ => _ end =>
    replace a with b by
      (destruct w as [[] ? ? ? ? ?]; fields; subst; unfold with_self, with_socket;
       fields; rewrite Z.sub_diag; reflexivity) end end.
unfold bind. destruct (complete_message _) as [[] w1|e w1|];
  [destruct (JsonTcpClient._on_ready_read w1)|..]; reflexivity.
Qed.

(** X5.  A payload that arrives in two reads is never decoded: the
    second read takes the length of the whole buffer off what is left to
    read, which goes below zero.  The payload stays in the buffer, and no
    later read decodes or dispatches anything. *)
Theorem payload_in_two_reads_never_decoded header p1 p2 chunks w :
  at_frame_boundary w ->
  pack_I (Z.of_nat (length (p1 ++ p2))) = Some header ->
  p1 <> [] -> p2 <> [] ->
  exists w1 w2,
    receive_all [header ++ p1; p2] w = Some w1
    /\ trace w1 = trace w
    /\ _data_buf (self w1) = p1 ++ p2
    /\ wedged w1
    /\ receive_all chunks w1 = Some w2
    /\ decoded (trace w2) = decoded (trace w)
    /\ calls (trace w2) = calls (trace w)
    /\ wedged w2.
Proof.
intros Hb Hp Hn1 Hn2. pose proof Hb as (Hm & Hh & Hd & Hs).
assert (Hl1 : (0 < length p1)%nat) by (destruct p1; [done | cbn; lia]).
assert (Hl2 : (0 < length p2)%nat) by (destruct p2; [done | cbn; lia]).
cbn [receive_all].
rewrite (header_received header p1 _ w Hb Hp) by (intros _; rewrite length_app; lia).
unfold receive at 1, run_slot. fields. rewrite Hs. cbn [app].
rewrite _on_ready_read_step by (fields; exact Hn2).
unfold bind at 1.
rewrite body_payload by (fields; first [reflexivity | rewrite length_app; lia]). cbv zeta.
fields. rewrite length_app.
replace (Z.to_nat (Z.of_nat (length p1 + length p2) - Z.of_nat (length p1))) with (length p2) by lia.
rewrite take_ge, drop_ge by lia. rewrite length_app.
rewrite decide_False by lia.
rewrite _on_ready_read_unfold. fields.
match goal with |- exists w1 w2, Some ?w0 = Some w1 /\ _ =>
  assert (Hw : wedged w0) by
    (unfold wedged; fields; split; [reflexivity|]; split; [lia|];
     destruct p1; [done | discriminate]);
  destruct (receive_all_wedged chunks w0 Hw) as (w2 & Hr & Hw2 & Hd2 & Hc2 & _);
  exists w0, w2 end.
fields. auto 10.
Qed.

(** Once the header buffer holds more than four bytes, every read is
    appended to it. *)
Lemma header_overrun n : forall w,
  (length (socket w) <= n)%nat ->
  _header_complete (self w) = false -> (4 < length (_header_buf (self w)))%nat ->
  JsonTcpClient._on_ready_read w =
    Done tt (with_self (with_header_buf (_header_buf (self w) ++ socket w))
               (with_socket [] w)).
Proof.
induction n as [|n IH]; intros w Hn Hm Hl; rewrite _on_ready_read_unfold.
- destruct (socket w) as [|b l] eqn:Hs; [|cbn in Hn; lia].
  rewrite app_nil_r. destruct w as [[] ? ? ? ? ?]. fields. subst. reflexivity.
- destruct (socket w) as [|b l] eqn:Hs.
  + rewrite app_nil_r. destruct w as [[] ? ? ? ? ?]. fields. subst. reflexivity.
  + unfold bind. rewrite body_header by exact Hm. cbv zeta.
    rewrite decide_False by (rewrite length_app; lia).
    rewrite IH.
    * fields. rewrite Hs, <- app_assoc, take_drop. reflexivity.
    * fields. rewrite Hs, length_drop. cbn [length] in *. lia.
    * fields. exact Hm.
    * fields. rewrite length_app. lia.
Qed.

(** X7.  A header that arrives in two reads is lost unless the second
    read brings exactly its missing bytes: when it brings more, the
    header buffer grows past four bytes, and from then on the decoder
    appends everything it receives to that buffer and decodes nothing. *)
Theorem split_header_swallows_input h1 data chunks w :
  at_frame_boundary w ->
  (0 < length h1 < 4)%nat -> (4 - length h1 < length data)%nat ->
  exists w',
    receive_all (h1 :: data :: chunks) w = Some w'
    /\ trace w' = trace w
    /\ _header_complete (self w') = false
    /\ _header_buf (self w') = h1 ++ data ++ concat chunks
    /\ _callbacks (self w') = _callbacks (self w).
Proof.
intros (Hm & Hh & Hd & Hs) Hl1 Hl2.
cbn [receive_all]. unfold receive at 1, run_slot. rewrite Hs. cbn [app].
rewrite _on_ready_read_step by (fields; destruct h1; [cbn in Hl1; lia | discriminate]).
unfold bind at 1. rewrite body_header by exact Hm. cbv zeta. fields. rewrite Hh. cbn [app].
rewrite take_ge, drop_ge by lia.
rewrite decide_False by lia.
rewrite _on_ready_read_unfold. fields.
unfold receive at 1, run_slot. fields. cbn [app].
rewrite _on_ready_read_step by (fields; destruct data; [cbn in Hl2; lia | discriminate]).
unfold bind at 1. rewrite body_header by exact Hm. cbv zeta. fields.
rewrite decide_False by (rewrite length_app, length_take; lia).
rewrite (header_overrun (length data)) by
  (fields; first [exact Hm | rewrite length_drop; lia | rewrite length_app, length_take; lia]).
fields. rewrite <- app_assoc, take_drop.
match goal with |- exists w', receive_all chunks ?w0 = _ /\ _ =>
  assert (Hg : forall cs w1, _header_complete (self w1) = false -> socket w1 = [] ->
            (4 < length (_header_buf (self w1)))%nat ->
            exists w', receive_all cs w1 = Some w' /\ trace w' = trace w1
              /\ _header_complete (self w') = false
              /\ _header_buf (self w') = _header_buf (self w1) ++ concat cs
              /\ _callbacks (self w') = _callbacks (self w1));
  [|destruct (Hg chunks w0) as (w' & Hr & Ht & Hc & Hb & Hk);
    [fields; exact Hm | reflexivity | fields; rewrite length_app; lia |];
    exists w'; rewrite Hr, Ht, Hc, Hb, Hk; fields; rewrite <- app_assoc; auto] end.
induction cs as [|c cs IH]; intros w1 Hm1 Hs1 Hl.
- exists w1. cbn. rewrite app_nil_r. auto.
- cbn [receive_all]. unfold receive, run_slot. rewrite Hs1. cbn [app].
  rewrite (header_overrun (length c)) by (fields; first [exact Hm1 | lia]).
  fields.
  match goal with |- exists w', receive_all cs ?w2 = _ /\ _ =>
    destruct (IH w2) as (w' & Hr & Ht & Hc & Hb & Hk);
      [fields; exact Hm1 | reflexivity | fields; rewrite length_app; lia |];
    exists w'; rewrite Hr, Ht, Hc, Hb, Hk; fields; cbn [concat];
    rewrite <- app_assoc; auto end.
Qed.
End pieces.

(** ** A frame without payload *)
Section empty_payload.
Context `{Runtime}.

(** A decoder that waits for a payload of length zero raises as soon as
    there is something to read, and reads nothing. *)
Lemma empty_payload_raises t w :
  _header_complete (self w) = true -> _to_read (self w) = 0 ->
  _data_buf (self w) = [] ->
  utf8_decode [] = Some t -> json_loads t = None -> socket w <> [] ->
  JsonTcpClient._on_ready_read w = Raised ValueError w.
Proof.
intros Hc Hz Hd Hu Hj Hs.
rewrite _on_ready_read_step by exact Hs. unfold bind.
rewrite body_payload by (first [exact Hc | lia]). cbv zeta.
rewrite Hz, Hd. change (Z.to_nat 0) with 0%nat. rewrite take_0, drop_0. cbn [app length].
rewrite decide_True by reflexivity.
rewrite complete_message_malformed by (fields; rewrite Hu; exact Hj).
fields. rewrite Hu.
destruct w as [[] ? ? ? ? ?]. fields. subst. reflexivity.
Qed.

(** X8.  A frame whose header declares an empty payload blocks the
    decoder.  Nothing happens when the header is read; every later read
    that brings bytes hands the empty payload to [json.loads], which
    refuses it: the read ends in [ValueError], no byte is taken from the
    socket, and no message is decoded or dispatched any more. *)
Theorem empty_payload_blocks header t chunks w :
  at_frame_boundary w -> pack_I 0 = Some header ->
  utf8_decode [] = Some t -> json_loads t = None ->
  Forall (fun c => c <> []) chunks ->
  exists w1 w2,
    receive header w = Some w1
    /\ trace w1 = trace w
    /\ receive_all chunks w1 = Some w2
    /\ decoded (trace w2) = decoded (trace w)
    /\ calls (trace w2) = calls (trace w)
    /\ tracebacks (trace w2) =
         tracebacks (trace w) ++ replicate (length chunks) ValueError
    /\ socket w2 = concat chunks.
Proof.
intros Hb Hp Hu Hj Hcs. pose proof Hb as (Hm & Hh & Hd & Hs).
assert (Hr := header_received header [] 0 w Hb Hp ltac:(done)).
rewrite app_nil_r in Hr. rewrite Hr. clear Hr.
assert (Hg : forall cs w1,
  _header_complete (self w1) = true -> _to_read (self w1) = 0 ->
  _data_buf (self w1) = [] -> Forall (fun c => c <> []) cs ->
  exists w2, receive_all cs w1 = Some w2
    /\ decoded (trace w2) = decoded (trace w1)
    /\ calls (trace w2) = calls (trace w1)
    /\ tracebacks (trace w2) = tracebacks (trace w1) ++ replicate (length cs) ValueError
    /\ socket w2 = socket w1 ++ concat cs).
{ induction cs as [|c cs IH]; intros w1 Hc1 Hz1 Hd1 HF.
  - exists w1. cbn. rewrite !app_nil_r. auto.
  - inversion HF as [|? ? Hne HF']; subst.
    cbn [receive_all]. unfold receive, run_slot.
    rewrite (empty_payload_raises t) by
      (fields; first [assumption | destruct (socket w1), c; done]).
    match goal with |- exists w2, receive_all cs ?w0 = _ /\ _ =>
      destruct (IH w0) as (w2 & Hr & Hdec & Hcalls & Htb & Hsock);
        [fields; assumption .. |]; exists w2 end.
    fields. rewrite decoded_app, calls_app, tracebacks_app in *.
    cbn in Hdec, Hcalls, Htb. rewrite !app_nil_r in *.
    rewrite Hr, Hdec, Hcalls, Htb, Hsock. cbn [length replicate concat].
    rewrite <- !app_assoc. auto. }
match goal with |- exists w1 w2, Some ?w0 = Some w1 /\ _ =>
  destruct (Hg chunks w0) as (w2 & Hr & Hdec & Hcalls & Htb & Hsock);
    [fields; first [reflexivity | assumption] .. |]; exists w0, w2 end.
fields. rewrite Hs in Hsock. auto 10.
Qed.
End empty_payload.

(** ** Responses *)
Section responses.
Context `{Runtime}.

(** X17.  A response whose request identifier is a JSON array or object
    cannot be looked up in the callback table: the message is logged as
    received, the lookup raises [TypeError] out of the handler, and the
    decoder is left as after a malformed payload: the bytes behind the
    frame stay unread and no later read decodes or dispatches anything. *)
Theorem unhashable_request_id_wedges
    payload data rest chunks t obj request_id results status w :
  at_frame_boundary w -> frame payload = Some data -> payload <> [] ->
  utf8_decode payload = Some t -> json_loads t = Some obj ->
  response_fields obj = Some (request_id, results, status) ->
  match request_id with JList _ | JDict _ => True | _ => False end ->
  exists w1 w2,
    receive (data ++ rest) w = Some w1
    /\ trace w1 = trace w ++ [Log pyqode_client DEBUG (MsgResponseReceived obj);
                              Traceback TypeError]
    /\ _callbacks (self w1) = _callbacks (self w)
    /\ socket w1 = rest
    /\ receive_all chunks w1 = Some w2
    /\ decoded (trace w2) = decoded (trace w) ++ [obj]
    /\ calls (trace w2) = calls (trace w)
    /\ wedged w2.
Proof.
intros (Hm & Hh & Hd & Hs) Hf Hp Hu Hj Hr Hbad.
unfold receive at 1, run_slot. rewrite Hs. cbn [app].
rewrite (frame_unhashable payload data rest t obj (with_socket (data ++ rest) w)
           Hf Hp Hm Hh Hd eq_refl Hu Hj request_id results status Hr Hbad).
match goal with |- exists w1 w2, Some ?w0 = Some w1 /\ _ =>
  assert (Hw : wedged w0) by
    (unfold wedged, payload_read; fields; repeat split; [lia | exact Hp]);
  destruct (receive_all_wedged chunks w0 Hw) as (w2 & Hr2 & Hw2 & Hd2 & Hc2 & _);
  exists w0, w2 end.
unfold payload_read in *. fields.
rewrite <- !app_assoc in *. rewrite !decoded_app, !calls_app in *.
cbn in Hd2, Hc2. rewrite !app_nil_r in *. cbn [app]. auto 10.
Qed.

(** X16.  Responses are matched to requests by their identifier, not by
    their order: with two requests pending, the responses to both
    arriving in one read, in either order, call each callback once with
    the status and the results of its own response, and both entries
    leave the table. *)
Theorem responses_matched_by_id
    payload1 data1 t1 obj1 rid1 results1 status1 callback1
    payload2 data2 t2 obj2 rid2 results2 status2 callback2 w :
  at_frame_boundary w -> rid1 <> rid2 ->
  _callbacks (self w) !! rid1 = Some callback1 ->
  _callbacks (self w) !! rid2 = Some callback2 ->
  frame payload1 = Some data1 -> payload1 <> [] ->
  utf8_decode payload1 = Some t1 -> json_loads t1 = Some obj1 ->
  response_fields obj1 = Some (JStr rid1, results1, status1) ->
  frame payload2 = Some data2 -> payload2 <> [] ->
  utf8_decode payload2 = Some t2 -> json_loads t2 = Some obj2 ->
  response_fields obj2 = Some (JStr rid2, results2, status2) ->
  exists w',
    receive (data2 ++ data1) w = Some w'
    /\ calls (trace w') =
         calls (trace w) ++ [(callback2, status2, results2);
                             (callback1, status1, results1)]
    /\ _callbacks (self w') = delete rid1 (delete rid2 (_callbacks (self w)))
    /\ at_frame_boundary w'.
Proof.
intros (Hm & Hh & Hd & Hs) Hne Hc1 Hc2 Hf1 Hp1 Hu1 Hj1 Hr1 Hf2 Hp2 Hu2 Hj2 Hr2.
unfold receive, run_slot. rewrite Hs. cbn [app].
rewrite (frame_answered payload2 data2 data1 t2 obj2 (with_socket (data2 ++ data1) w)
           Hf2 Hp2 Hm Hh Hd eq_refl Hu2 Hj2 rid2 results2 status2 callback2 Hr2 Hc2).
match goal with |- context [JsonTcpClient._on_ready_read ?w0] =>
  rewrite (frame_answered payload1 data1 [] t1 obj1 w0 Hf1 Hp1)
    with (rid := rid1) (results := results1) (status := status1) (callback := callback1) end.
- rewrite _on_ready_read_unfold. unfold frame_handled. fields.
  eexists. split; [reflexivity|]. unfold at_frame_boundary. fields.
  rewrite !calls_app. cbn. rewrite <- !app_assoc. cbn. auto 10.
- exact Hm.
- exact Hh.
- exact Hd.
- unfold frame_handled. fields. now rewrite app_nil_r.
- exact Hu1.
- exact Hj1.
- exact Hr1.
- unfold frame_handled. fields. rewrite lookup_delete_ne by congruence. exact Hc1.
Qed.
End responses.

(** ** Sending *)
Section sending.
Context `{Runtime}.

Lemma written_app tr1 tr2 : written (tr1 ++ tr2) = written tr1 ++ written tr2.
Proof.
induction tr1 as [|e tr1 IH]; [reflexivity|].
destruct e; cbn; rewrite IH, ?app_assoc; reflexivity.
Qed.

(** What [send] does when the three library calls succeed. *)
Lemma send_done obj t payload header w :
  json_dumps obj = Some t -> utf8_encode t = Some payload ->
  pack_I (Z.of_nat (length payload)) = Some header ->
  JsonTcpClient.send obj w =
    Done tt (with_trace (trace w ++ [Log pyqode_client DEBUG (MsgSendingRequest obj);
                                     SocketWrite header; SocketWrite payload]) w).
Proof.
intros Hj Hu Hp. unfold JsonTcpClient.send, write. run.
rewrite Hj, Hu, Hp. fields. rewrite <- !app_assoc. reflexivity.
Qed.

(** X2.  [send] writes a whole frame or nothing.  When it returns, it has
    logged the request and written a header of four bytes and then the
    payload the header announces; when it raises (the object cannot be
    serialised or encoded, or the payload is too long for the header),
    it has logged the request and written nothing.  The client is left
    as it was either way. *)
Theorem send_writes_frame_or_nothing obj w :
  match JsonTcpClient.send obj w with
  | Done _ w' =>
      exists header payload,
        trace w' = trace w ++ [Log pyqode_client DEBUG (MsgSendingRequest obj);
                               SocketWrite header; SocketWrite payload]
        /\ length header = 4%nat
        /\ unpack_I header = Some (Z.of_nat (length payload))
        /\ frame payload = Some (header ++ payload)
        /\ self w' = self w
  | Raised _ w' =>
      trace w' = trace w ++ [Log pyqode_client DEBUG (MsgSendingRequest obj)]
      /\ self w' = self w
  | OutOfFuel => False
  end.
Proof.
destruct (json_dumps obj) as [t|] eqn:Hj.
- destruct (utf8_encode t) as [payload|] eqn:Hu.
  + destruct (pack_I (Z.of_nat (length payload))) as [header|] eqn:Hp.
    * rewrite (send_done obj t payload header w Hj Hu Hp).
      exists header, payload. fields. destruct (unpack_pack _ _ Hp) as [Hl Hun].
      unfold frame. rewrite Hp. auto.
    * unfold JsonTcpClient.send, write. run. rewrite Hj, Hu, Hp. fields. auto.
  + unfold JsonTcpClient.send, write. run. rewrite Hj, Hu. fields. auto.
- unfold JsonTcpClient.send, write. run. rewrite Hj. fields. auto.
Qed.

(** A whole, well-formed frame that arrives at a frame boundary is
    decoded, and the decoder is at a frame boundary again. *)
Lemma receive_decoded payload data obj w :
  frame payload = Some data -> decodes_to payload obj -> at_frame_boundary w ->
  exists w',
    receive data w = Some w'
    /\ at_frame_boundary w'
    /\ decoded (trace w') = decoded (trace w) ++ [obj]
    /\ tracebacks (trace w') = tracebacks (trace w).
Proof.
intros Hf Hd (Hm & Hb & Hdb & Hs). unfold receive, run_slot. rewrite Hs. cbn [app].
destruct (frames_dispatched [payload] [obj] ltac:(constructor; [exact Hd | constructor])
            (data ++ []) (with_socket data w)) as (w' & Hr & Hbd & Hdec & Htb).
- cbn [frames]. now rewrite Hf.
- exact Hm.
- exact Hb.
- exact Hdb.
- fields. now rewrite app_nil_r.
- rewrite Hr. exists w'. auto.
Qed.

(** X3.  What [send] writes, the frame decoder reads back.  On a runtime
    on which the message survives [json.dumps], the UTF-8 encoding and
    their inverses, the bytes [send] writes for an object, delivered in
    one read to a client at a frame boundary, are decoded to that very
    object.  Unless the object is a response whose request identifier
    is a list or a dict (the lookup of which raises), the read ends with
    no error and the decoder is at a frame boundary again. *)
Theorem sent_message_is_decoded obj t payload w peer :
  json_dumps obj = Some t -> utf8_encode t = Some payload ->
  utf8_decode payload = Some t -> json_loads t = Some obj ->
  payload <> [] -> Z.of_nat (length payload) < 2 ^ 32 ->
  at_frame_boundary peer ->
  exists data w' peer',
    JsonTcpClient.send obj w = Done tt w'
    /\ written (trace w') = written (trace w) ++ data
    /\ receive data peer = Some peer'
    /\ decoded (trace peer') = decoded (trace peer) ++ [obj]
    /\ (hashable_id obj ->
        tracebacks (trace peer') = tracebacks (trace peer)
        /\ at_frame_boundary peer').
Proof.
intros Hj Hu Hd Hl Hne Hlen Hb.
destruct (pack_I (Z.of_nat (length payload))) as [header|] eqn:Hp.
2: { unfold pack_I in Hp. rewrite decide_True in Hp by lia. discriminate. }
assert (Hf : frame payload = Some (header ++ payload)) by (unfold frame; now rewrite Hp).
assert (Hw : written (trace w ++ [Log pyqode_client DEBUG (MsgSendingRequest obj);
                                  SocketWrite header; SocketWrite payload])
             = written (trace w) ++ header ++ payload).
{ rewrite written_app. cbn. now rewrite app_nil_r. }
assert (Hcase : hashable_id obj
  \/ exists request_id results status,
       response_fields obj = Some (request_id, results, status)
       /\ match request_id with JList _ | JDict _ => True | _ => False end).
{ unfold hashable_id.
  destruct (response_fields obj) as [[[request_id results] status]|]; [|left; exact I].
  destruct request_id;
    first [left; exact I | right; eexists _, _, _; split; [reflexivity | exact I]]. }
destruct Hcase as [Hh | (request_id & results & status & Hr & Hbad)].
- destruct (receive_decoded payload (header ++ payload) obj peer)
    as (peer' & Hrecv & Hb' & Hdec & Htb).
  + exact Hf.
  + split; [exact Hne|]. split; [exists t; auto | exact Hh].
  + exact Hb.
  + exists (header ++ payload). eexists. exists peer'.
    split; [exact (send_done obj t payload header w Hj Hu Hp)|].
    fields. auto 10.
- destruct Hb as (Hm & Hhb & Hdb & Hs).
  exists (header ++ payload). eexists. eexists.
  split; [exact (send_done obj t payload header w Hj Hu Hp)|].
  split; [exact Hw|].
  unfold receive, run_slot. rewrite Hs. cbn [app].
  rewrite (frame_unhashable payload (header ++ payload) [] t obj
             (with_socket (header ++ payload) peer)
             Hf Hne Hm Hhb Hdb (eq_sym (app_nil_r _)) Hd Hl
             request_id results status Hr Hbad).
  split; [reflexivity|]. unfold payload_read. fields.
  split.
  + rewrite <- app_assoc, decoded_app. cbn. reflexivity.
  + intros Hh. exfalso. unfold hashable_id in Hh. rewrite Hr in Hh.
    destruct request_id; first [exact Hh | contradiction].
Qed.
End sending.

(** ** The life of a client *)
Section lifecycle.
Context `{Runtime}.

Lemma actions_app tr1 tr2 : actions (tr1 ++ tr2) = actions tr1 ++ actions tr2.
Proof.
induction tr1 as [|e tr1 IH]; [reflexivity|].
destruct e; cbn; rewrite IH; reflexivity.
Qed.

(** What [start] does with a script that exists. *)
Lemma start_done server_script interpreter args free_port w :
  path_exists server_script = true ->
  JsonTcpClient.start server_script interpreter args free_port w =
    let program :=
      if endswith server_script (T ".exe") then server_script
      else match interpreter with
           | Some ((_ :: _) as i) => i
           | _ => sys_executable
           end in
    let pgm_args :=
      (if endswith server_script (T ".exe") then [] else [server_script])
      ++ str_int free_port :: default [] args in
    Done tt
      (with_trace
         (trace w ++ [Log pyqode_client DEBUG MsgRunningWithPython;
                      NewServerProcess; PickFreePort free_port;
                      ProcessStart program pgm_args;
                      Log pyqode_client DEBUG (MsgStartingServerProcess program pgm_args)])
         (with_self (with_port free_port)
            (with_self (with_process (Some ServerProcess.__init__)) w))).
Proof.
intros He. unfold JsonTcpClient.start, JsonTcpClient._pick_free_port. run.
rewrite He. fields. cbv zeta.
destruct (endswith server_script (T ".exe")); destruct args as [[|a args]|];
  cbn -[str_int]; rewrite <- ?app_assoc; reflexivity.
Qed.

(** X9.  [start] passes the port it picked to the server on the command
    line, right after the script (or first, for a frozen [.exe] server
    that needs no interpreter) and before the caller's own arguments, and
    that is the port the client connects to: once the process has
    started, a timer of [TIMEOUT_BEFORE_RETRY] ms fires the one
    connection attempt, to [127.0.0.1] at that port.  Before the process
    has started the client is not ready for requests. *)
Theorem start_then_connect server_script interpreter args free_port w :
  path_exists server_script = true -> timers w = [] ->
  exists program pgm_args w1 w2 w3,
    JsonTcpClient.start server_script interpreter args free_port w = Done tt w1
    /\ trace w1 = trace w ++ [Log pyqode_client DEBUG MsgRunningWithPython;
                              NewServerProcess; PickFreePort free_port;
                              ProcessStart program pgm_args;
                              Log pyqode_client DEBUG (MsgStartingServerProcess program pgm_args)]
    /\ program = (if endswith server_script (T ".exe") then server_script
                  else match interpreter with
                       | Some ((_ :: _) as i) => i
                       | _ => sys_executable
                       end)
    /\ pgm_args = (if endswith server_script (T ".exe") then [] else [server_script])
                  ++ str_int free_port :: default [] args
    /\ ready (self w1) = false
    /\ process_started w1 = Some w2
    /\ fire_timer w2 = Some w3
    /\ waits (trace w3) = waits (trace w) ++ [TIMEOUT_BEFORE_RETRY]
    /\ attempts (trace w3) = S (attempts (trace w))
    /\ last (trace w3) = Some (ConnectToHost (T "127.0.0.1") free_port).
Proof.
intros He Ht. rewrite (start_done _ interpreter args free_port w He). cbv zeta.
eexists _, _, _, _, _. split; [reflexivity|]. fields.
split; [reflexivity|]. split; [reflexivity|]. split; [reflexivity|].
split; [reflexivity|].
unfold process_started, run_slot at 1 2, ServerProcess._on_process_started,
  ServerProcess.set_running, JsonTcpClient._on_process_started, singleShot. run. fields.
split; [reflexivity|].
unfold fire_timer. fields. rewrite Ht. cbn [app].
unfold run_slot, JsonTcpClient._connect, connectToHost. run. fields.
split; [reflexivity|]. fields.
rewrite !waits_app, !attempts_app, last_snoc. cbn. rewrite !app_nil_r.
split; [reflexivity|]. split; [lia | reflexivity].
Qed.

(** With the retry budget spent, or all of it but one attempt, a
    process that starts gets a single connection attempt. *)
Lemma started_then_refused n w :
  timers w = [] -> MAX_RETRY - 1 <= _connection_attempts (self w) ->
  exists w2 w3,
    process_started w = Some w2
    /\ refuse_connections (S n) w2 = Some w3
    /\ attempts (trace w3) = S (attempts (trace w))
    /\ tracebacks (trace w3) = tracebacks (trace w) ++ [RuntimeError]
    /\ timers w3 = [].
Proof.
intros Ht Ha.
unfold process_started, run_slot at 1 2, ServerProcess._on_process_started,
  ServerProcess.set_running, JsonTcpClient._on_process_started, singleShot. run. fields.
rewrite Ht. cbn [app].
match goal with |- exists w2 w3, Some ?w0 = _ /\ _ =>
  destruct (refused_once TIMEOUT_BEFORE_RETRY w0 eq_refl)
    as (wa & wb & H1 & H2 & Hc & Hat & Hwt & Hif); exists w0, wb end.
fields. rewrite decide_False in Hif by lia. destruct Hif as (Ht2 & Htb & _).
split; [reflexivity|]. split.
- cbn [refuse_connections]. fields. rewrite H1, H2.
  destruct n; cbn [refuse_connections]; rewrite ?Ht2; reflexivity.
- rewrite Hat, Htb, !attempts_app, !tracebacks_app. cbn. rewrite !app_nil_r.
  split; [lia|]. auto.
Qed.

(** X10.  The count of connection attempts is never reset: [start] leaves
    it as it is.  A client that has spent its retry budget (or all of it
    but one attempt) and is started again makes a single connection
    attempt; when that one is refused, [RuntimeError] is raised and no
    further attempt follows. *)
Theorem restart_after_exhaustion server_script interpreter args free_port n w :
  path_exists server_script = true -> timers w = [] ->
  MAX_RETRY - 1 <= _connection_attempts (self w) ->
  exists w1 w2 w3,
    JsonTcpClient.start server_script interpreter args free_port w = Done tt w1
    /\ _connection_attempts (self w1) = _connection_attempts (self w)
    /\ process_started w1 = Some w2
    /\ refuse_connections (S n) w2 = Some w3
    /\ attempts (trace w3) = S (attempts (trace w))
    /\ tracebacks (trace w3) = tracebacks (trace w) ++ [RuntimeError]
    /\ timers w3 = [].
Proof.
intros He Ht Ha. rewrite (start_done _ interpreter args free_port w He). cbv zeta.
match goal with |- exists w1 w2 w3, Done tt ?wa = _ /\ _ =>
  destruct (started_then_refused n wa) as (w2 & w3 & H1 & H2 & Hat & Htb & Ht3);
    [fields; assumption .. |]; exists wa, w2, w3 end.
fields. rewrite attempts_app, tracebacks_app in *. cbn in Hat, Htb.
rewrite app_nil_r in Htb. rewrite Nat.add_0_r in Hat. auto 10.
Qed.

(** X11.  [close] on a connected client with a running server: the
    [shutdown] request is written first, as one frame; then the socket
    is closed, and the process is terminated and waited for; these are
    all the calls it makes.  The client is then neither connected nor
    running, so a request made after [close] raises [NotConnectedError],
    and a second [close] only closes the socket again. *)
Theorem close_shuts_down t payload header p wk args on_receive uuid4 w :
  is_connected (self w) = true ->
  _process (self w) = Some p -> running p = true ->
  json_dumps (JStr (T "shutdown")) = Some t -> utf8_encode t = Some payload ->
  pack_I (Z.of_nat (length payload)) = Some header ->
  exists w' w'',
    JsonTcpClient.close w = Done tt w'
    /\ actions (trace w') =
         actions (trace w) ++ [SocketWrite header; SocketWrite payload;
                               SocketClose; ProcessTerminate; ProcessWaitForFinished]
    /\ is_connected (self w') = false
    /\ _process (self w') = Some {| running := false |}
    /\ _callbacks (self w') = _callbacks (self w)
    /\ JsonTcpClient.request_work wk args on_receive uuid4 w' = Raised NotConnectedError w'
    /\ JsonTcpClient.close w' = Done tt w''
    /\ actions (trace w'') = actions (trace w') ++ [SocketClose].
Proof.
intros Hc Hp Hr Hj Hu Hh.
unfold JsonTcpClient.close at 1. unfold get at 1, bind at 1. rewrite Hc, Hp, Hr.
unfold ret at 1, bind at 1. unfold bind at 1.
rewrite (send_done _ t payload header w Hj Hu Hh).
unfold JsonTcpClient._terminate_server_process, ServerProcess.terminate,
  ServerProcess.waitForFinished, ServerProcess.set_running, QTcpSocket_close. run. fields.
rewrite ?Hp, ?Hr. fields. rewrite ?Hp, ?Hr. fields. rewrite ?Hp.
eexists _, _. split; [reflexivity|]. fields. rewrite !actions_app. cbn [actions app].
rewrite <- !app_assoc. cbn [app]. rewrite ?Hp.
split; [reflexivity|]. split; [reflexivity|]. split; [reflexivity|].
split; [reflexivity|].
split; [unfold JsonTcpClient.request_work; run; fields; rewrite ?Hp; reflexivity|].
unfold JsonTcpClient.close, JsonTcpClient._terminate_server_process, QTcpSocket_close.
run. fields. rewrite ?Hp. fields. split; [reflexivity|].
fields. rewrite !actions_app. cbn [actions app]. rewrite <- !app_assoc. reflexivity.
Qed.

(** X12.  Once the server process has finished, the client stops talking
    to it: a request raises [NotConnectedError] although the socket may
    still be connected, and [close] writes no [shutdown] request and
    terminates nothing; the one call it makes is to close the socket. *)
Theorem finished_process_is_left_alone exit_code p wk args on_receive uuid4 w :
  _process (self w) = Some p ->
  exists w1 w2,
    run_slot (ServerProcess._on_process_finished exit_code) w = Some w1
    /\ JsonTcpClient.request_work wk args on_receive uuid4 w1 = Raised NotConnectedError w1
    /\ JsonTcpClient.close w1 = Done tt w2
    /\ actions (trace w2) = actions (trace w) ++ [SocketClose]
    /\ is_connected (self w2) = false
    /\ _process (self w2) = Some {| running := false |}
    /\ _callbacks (self w2) = _callbacks (self w).
Proof.
intros Hp.
unfold run_slot, ServerProcess._on_process_finished, ServerProcess.set_running. run. fields.
eexists _, _. split; [reflexivity|].
split; [unfold JsonTcpClient.request_work; run; fields; rewrite Hp; reflexivity|].
split.
{ unfold JsonTcpClient.close, JsonTcpClient._terminate_server_process, QTcpSocket_close.
  run. fields. rewrite Hp.
  destruct (is_connected (self w)); cbn; fields; rewrite ?Hp; cbn; fields; reflexivity. }
fields. rewrite Hp, !actions_app. cbn [actions]. rewrite app_nil_r. auto.
Qed.

(** X13.  Once the socket is disconnected, a request raises
    [NotConnectedError], and [close] writes no [shutdown] request to the
    dead connection; it still closes the socket, terminates the running
    server process and waits for it, and these are all the calls it
    makes. *)
Theorem disconnected_client_closes_quietly p wk args on_receive uuid4 w :
  _process (self w) = Some p -> running p = true ->
  exists w1 w2,
    run_slot JsonTcpClient._on_disconnected w = Some w1
    /\ JsonTcpClient.request_work wk args on_receive uuid4 w1 = Raised NotConnectedError w1
    /\ JsonTcpClient.close w1 = Done tt w2
    /\ actions (trace w2) =
         actions (trace w) ++ [SocketClose; ProcessTerminate; ProcessWaitForFinished]
    /\ _process (self w2) = Some {| running := false |}
    /\ is_connected (self w2) = false
    /\ _callbacks (self w2) = _callbacks (self w).
Proof.
intros Hp Hr.
unfold run_slot, JsonTcpClient._on_disconnected. run. fields.
eexists _, _. split; [reflexivity|].
split; [unfold JsonTcpClient.request_work; run; fields; rewrite Hp, Hr; reflexivity|].
split.
{ unfold JsonTcpClient.close, JsonTcpClient._terminate_server_process,
    ServerProcess.terminate, ServerProcess.waitForFinished, ServerProcess.set_running,
    QTcpSocket_close.
  run. fields. rewrite Hp, Hr. fields. reflexivity. }
fields. rewrite Hp, !actions_app. cbn [actions app]. rewrite <- !app_assoc. cbn [app].
auto.
Qed.

(** X14.  A process error is reported only while the process counts as
    running.  It is dropped without a trace between [start] and the
    [started] signal (so a server that fails to start is not reported),
    after [terminate] (so the crash [terminate] causes is not reported),
    and after the [finished] signal, whatever the error code. *)
Theorem process_error_unreported
    server_script interpreter args free_port exit_code error test_not_deleted w :
  path_exists server_script = true ->
  exists w1 w2,
    JsonTcpClient.start server_script interpreter args free_port w = Done tt w1
    /\ ServerProcess._on_process_error error test_not_deleted w1 = Done tt w1
    /\ run_slot ServerProcess._on_process_started w1 = Some w2
    /\ _process (self w2) = Some {| running := true |}
    /\ (ServerProcess.terminate ;;
        ServerProcess._on_process_error error test_not_deleted) w2
       = ServerProcess.terminate w2
    /\ (ServerProcess._on_process_finished exit_code ;;
        ServerProcess._on_process_error error test_not_deleted) w2
       = ServerProcess._on_process_finished exit_code w2.
Proof.
intros He. rewrite (start_done _ interpreter args free_port w He). cbv zeta.
eexists _, _. split; [reflexivity|].
unfold run_slot, ServerProcess._on_process_error, ServerProcess._on_process_started,
  ServerProcess._on_process_finished, ServerProcess.terminate, ServerProcess.set_running.
run. fields. auto 10.
Qed.
End lifecycle.

(** ** Output without a newline *)

(** [s[:-1]] is [s] without its last character. *)
Lemma slice_to_minus_one {A} (s : list A) : slice_to s (-1) = removelast s.
Proof.
unfold slice_to. cbn [Z.leb Z.compare].
destruct s as [|x s] using rev_ind; [reflexivity|].
rewrite removelast_last, length_app. cbn [length].
replace (Z.to_nat (Z.max 0 (Z.of_nat (length s + 1) + -1))) with (length s) by lia.
apply take_app_length.
Qed.

Section output_fragments.
Context `{Runtime}.

(** X15.  A read of the worker's output that holds no newline is not
    kept for later: [rfind] answers [-1], so the text is cut by its last
    character, and what is left is logged as lines at once.  An empty
    read logs nothing. *)
Theorem output_without_newline data s w :
  stdout w = [] -> stderr w = [] ->
  utf8_decode data = Some s -> LF ∉ s ->
  process_prints data w =
    Some (with_trace
            (trace w ++ map (fun l => Log pyqode_server DEBUG (MsgLine l))
                            (splitlines (removelast s))) w)
  /\ process_complains data w =
    Some (with_trace
            (trace w ++ map (fun l => Log pyqode_server ERROR (MsgLine l))
                            (splitlines (removelast s))) w).
Proof.
intros Ho He Hu Hl.
unfold process_prints, process_complains, run_slot,
  ServerProcess._on_process_stdout_ready, ServerProcess._on_process_stderr_ready,
  readAllStandardOutput, readAllStandardError.
unfold bind at 1 3. fields. rewrite Ho, He. cbn [app].
unfold or_raise, bind at 1 2. rewrite Hu. unfold ret.
rewrite rfind_absent by exact Hl. rewrite slice_to_minus_one.
rewrite !for_each_log. fields.
split; f_equal; destruct w; fields; subst; reflexivity.
Qed.
End output_fragments.

(** ** Closing too early *)
Section early_close.
Context `{Runtime}.

End early_close.

(** * Examples, on the ASCII runtime *)
Import AsciiRuntime.

(** C1, at a frame the code decodes differently when it is split.  The
    frame of the JSON string ["a"] delivered in one read is decoded; the
    same bytes delivered one at a time are not: the payload is handed to
    the JSON decoder one byte short, and the decoder is left wedged.
    Split after the first header byte, the frame is never recognised:
    the header buffer grows past four bytes.  The frame of the number
    [123] delivered one byte at a time is decoded as [12], and its last
    byte is taken for the start of the next header. *)
Theorem split_delivery_differs :
  (exists w, receive frame_a fresh = Some w
             /\ decoded (trace w) = [JStr (T "a")]
             /\ tracebacks (trace w) = [])
  /\ (exists w, receive_all (bytewise frame_a) fresh = Some w
                /\ decoded (trace w) = []
                /\ tracebacks (trace w) = [ValueError; ValueError])
  /\ (exists w, receive_all [[x03]; [x00; x00; x00] ++ J "'a'"] fresh = Some w
                /\ decoded (trace w) = []
                /\ length (_header_buf (self w)) = 7%nat)
  /\ (exists w, receive frame_123 fresh = Some w
                /\ decoded (trace w) = [JInt 123])
  /\ (exists w, receive_all (bytewise frame_123) fresh = Some w
                /\ decoded (trace w) = [JInt 12]
                /\ _header_buf (self w) = B "3").
Proof.
repeat split; eexists; (split; [vm_compute; reflexivity|]); repeat split; reflexivity.
Qed.

(** C2 on a client that was just started, with the refusals going on for
    150 rounds: a hundred attempts are made, and the run ends in
    [RuntimeError] with no timer pending. *)
Lemma retry_budget_witness :
  exists w1 w',
    process_started started = Some w1
    /\ refuse_connections 150 w1 = Some w'
    /\ attempts (trace w') = 100%nat
    /\ waits (trace w') = replicate 100 100
    /\ last (trace w') = Some (Traceback RuntimeError)
    /\ timers w' = [].
Proof.
destruct (retry_budget started 150 eq_refl eq_refl ltac:(lia))
  as (w1 & w' & H1 & _ & H2 & H3 & H3' & _ & H4 & H5 & _).
exists w1, w'. exact (conj H1 (conj H2 (conj H3 (conj H3' (conj H4 H5))))).
Defined.

(** C3 fails as it is worded: after [close] on a connected client with
    the request [r1] pending, the callback of [r1] is still in the table,
    which is not empty.  [close] itself called no callback; but the
    callback is still there to be called: when the client is started
    again and a response to [r1] comes in, it is. *)
Lemma close_leaves_callback_pending :
  exists w w1 w2,
    JsonTcpClient.close pending_r1 = Done tt w
    /\ calls (trace w) = []
    /\ _callbacks (self w) !! T "r1" = Some 7%N
    /\ _callbacks (self w) <> ∅
    /\ restarted w = Some w1
    /\ receive frame_r1 w1 = Some w2
    /\ calls (trace w2) = [(7%N, JBool true, JList [JInt 1; JInt 2])].
Proof.
eexists. eexists. eexists.
split; [vm_compute; reflexivity|]. split; [reflexivity|].
split; [vm_compute; reflexivity|].
split; [intros E; apply (f_equal (fun m => m !! T "r1")) in E;
        vm_compute in E; discriminate|].
split; [vm_compute; reflexivity|].
split; [vm_compute; reflexivity|]. reflexivity.
Qed.

(** C4 fails as it is worded: the frame of ["a"] is decoded when it
    comes first, and is not when it comes after a frame whose payload is
    no JSON; both reads end in [ValueError]. *)
Lemma malformed_payload_blocks_next_frame :
  (exists w, receive frame_a fresh = Some w /\ decoded (trace w) = [JStr (T "a")])
  /\ (exists w, receive_all [frame_bad; frame_a] fresh = Some w
                /\ decoded (trace w) = []
                /\ tracebacks (trace w) = [ValueError; ValueError]).
Proof.
split; eexists; (split; [vm_compute; reflexivity|]); repeat split; reflexivity.
Qed.

(** C4 as the code has it, on a read that holds a malformed frame and a
    good one, followed by two reads of a good frame each. *)
Lemma malformed_payload_wedges_witness :
  exists w1 w2,
    receive (frame_bad ++ frame_a) fresh = Some w1
    /\ trace w1 = [Traceback ValueError]
    /\ socket w1 = frame_a
    /\ receive_all [frame_a; frame_a] w1 = Some w2
    /\ decoded (trace w2) = []
    /\ wedged w2.
Proof.
destruct (malformed_payload_wedges (J "{") frame_bad frame_a [frame_a; frame_a] fresh)
  as (w1 & w2 & H1 & H2 & _ & _ & H3 & H4 & H5 & _ & H6).
- repeat split; reflexivity.
- vm_compute; reflexivity.
- discriminate.
- vm_compute; reflexivity.
- exists w1, w2. exact (conj H1 (conj H2 (conj H3 (conj H4 (conj H5 H6))))).
Defined.

(** C5 fails as it is worded: on a started client whose hundred
    connection attempts were all refused, the last refusal made
    [_on_error] raise [RuntimeError], which left the slot as an exception
    (the trace ends with its traceback); a further refusal raises it
    again. *)
Lemma retry_exhaustion_raises :
  _connection_attempts (self exhausted) = 100
  /\ tracebacks (trace exhausted) = [RuntimeError]
  /\ last (trace exhausted) = Some (Traceback RuntimeError)
  /\ exists w,
       JsonTcpClient._on_error ConnectionRefusedError exhausted = Raised RuntimeError w
       /\ timers w = [].
Proof.
split; [vm_compute; reflexivity|]. split; [vm_compute; reflexivity|].
split; [vm_compute; reflexivity|].
eexists. split; [vm_compute; reflexivity|]. reflexivity.
Qed.

(** C6 on a path that does not exist. *)
Lemma start_missing_script_witness :
  JsonTcpClient.start (T "/path/to/worker.py") None None 50000 fresh =
    Raised AssertionError
      (with_trace [Log pyqode_client DEBUG MsgRunningWithPython] fresh).
Proof.
exact (start_missing_script (T "/path/to/worker.py") None None 50000 fresh eq_refl).
Defined.

(** C7 fails as it is worded.  The line [abc] written in two pieces is
    never forwarded: the first read logs [a], the second [c], both at
    debug level, where the specification wants [abc] once, at info level.
    Of [one], newline, [tw] and then [o], newline, the code forwards [one]
    and [o]; the specification wants [one] and [two]. *)
Lemma output_not_buffered :
  (exists w, process_prints_all [B "ab"; B "c" ++ [x0a]] fresh = Some w
             /\ lines pyqode_server (trace w) = [(DEBUG, T "a"); (DEBUG, T "c")])
  /\ Spec.stdout_lines [T "ab"; T "c" ++ [LF]] = [(INFO, T "abc")]
  /\ (exists w, process_prints_all [B "one" ++ [x0a] ++ B "tw"; B "o" ++ [x0a]] fresh = Some w
                /\ lines pyqode_server (trace w) = [(DEBUG, T "one"); (DEBUG, T "o")])
  /\ Spec.stdout_lines [T "one" ++ [LF] ++ T "tw"; T "o" ++ [LF]]
     = [(INFO, T "one"); (INFO, T "two")].
Proof.
repeat split; try reflexivity;
  eexists; (split; [vm_compute; reflexivity|]); reflexivity.
Qed.

(** C7 as the code has it, on a read of two lines and a fragment. *)
Lemma output_lines_forwarded_witness :
  process_prints (B "one" ++ [x0a] ++ B "two" ++ [x0a] ++ B "thr") fresh =
    Some (with_trace [Log pyqode_server DEBUG (MsgLine (T "one"));
                      Log pyqode_server DEBUG (MsgLine (T "two"))] fresh)
  /\ process_complains (B "one" ++ [x0a] ++ B "two" ++ [x0a] ++ B "thr") fresh =
    Some (with_trace [Log pyqode_server ERROR (MsgLine (T "one"));
                      Log pyqode_server ERROR (MsgLine (T "two"))] fresh).
Proof.
apply (output_lines_forwarded (B "one" ++ [x0a] ++ B "two" ++ [x0a] ++ B "thr")
         (T "one" ++ [LF] ++ T "two") (T "thr") fresh).
- reflexivity.
- reflexivity.
- vm_compute; reflexivity.
- apply (bool_decide_unpack _). vm_compute. exact I.
Defined.

(** C8 on the request [r1], answered twice. *)
Lemma callback_fires_exactly_once_witness :
  exists w1 w2 w3,
    after (JsonTcpClient.request_work echo (JInt 1) (Some 7%N) (T "r1") connected) = Some w1
    /\ receive frame_r1 w1 = Some w2
    /\ calls (trace w2) = calls (trace w1) ++ [(7%N, JBool true, JList [JInt 1; JInt 2])]
    /\ _callbacks (self w2) = delete (T "r1") (_callbacks (self w1))
    /\ receive frame_r1_again w2 = Some w3
    /\ calls (trace w3) = calls (trace w2).
Proof.
destruct (callback_fires_exactly_once echo (JInt 1) 7%N (T "r1") connected
            {| running := true |}
            response_r1 frame_r1 (map Byte.to_N response_r1)
            (JDict [(T "request_id", JStr (T "r1")); (T "status", JBool true);
                    (T "results", JList [JInt 1; JInt 2])])
            (JBool true) (JList [JInt 1; JInt 2])
            response_r1_again frame_r1_again (map Byte.to_N response_r1_again)
            (JDict [(T "request_id", JStr (T "r1")); (T "status", JBool false);
                    (T "results", JNull)])
            (JBool false) JNull)
  as [(w1 & H1 & H2 & H3) Hlater].
- reflexivity.
- reflexivity.
- reflexivity.
- repeat split; reflexivity.
- vm_compute; reflexivity.
- discriminate.
- vm_compute; reflexivity.
- vm_compute; reflexivity.
- vm_compute; reflexivity.
- vm_compute; reflexivity.
- discriminate.
- vm_compute; reflexivity.
- vm_compute; reflexivity.
- vm_compute; reflexivity.
- destruct (Hlater w1 H2 H3) as (w2 & w3 & H4 & H5 & H6 & H7 & H8 & _).
  exists w1, w2, w3. exact (conj H1 (conj H4 (conj H5 (conj H6 (conj H7 H8))))).
Defined.

(** C9, at a message the code does not ignore.  With the request [r1]
    pending, a response whose identifier is the string [r2], which
    nobody registered, is dropped, and the response to [r1] that follows
    reaches its callback.  A response whose identifier is the list
    [[1]], which nobody registered either, is not dropped: the lookup
    raises [TypeError] out of the handler, the decoder is left in payload
    mode, and the response to [r1] that follows never reaches its
    callback, which stays pending. *)
Theorem unregistered_list_id_raises :
  _callbacks (self pending_r1) !! T "r1" = Some 7%N
  /\ JsonTcpClient.dispatch response_r2 pending_r1 = Done tt pending_r1
  /\ JsonTcpClient.dispatch response_listed pending_r1 = Raised TypeError pending_r1
  /\ (exists w, receive_all [frame_r2; frame_r1] pending_r1 = Some w
                /\ tracebacks (trace w) = []
                /\ calls (trace w) = [(7%N, JBool true, JList [JInt 1; JInt 2])])
  /\ (exists w, receive frame_listed pending_r1 = Some w
                /\ decoded (trace w) = [response_listed]
                /\ tracebacks (trace w) = [TypeError]
                /\ _header_complete (self w) = true)
  /\ (exists w, receive_all [frame_listed; frame_r1] pending_r1 = Some w
                /\ tracebacks (trace w) = [TypeError; ValueError]
                /\ calls (trace w) = []
                /\ _callbacks (self w) !! T "r1" = Some 7%N).
Proof.
split; [vm_compute; reflexivity|].
split; [vm_compute; reflexivity|].
split; [vm_compute; reflexivity|].
repeat split; eexists; (split; [vm_compute; reflexivity|]);
  repeat split; vm_compute; reflexivity.
Qed.

(** [unregistered_response_ignored] on a response to a request nobody
    made, and on a message that is no response at all, with another
    request pending. *)
Lemma unregistered_response_ignored_witness :
  JsonTcpClient.dispatch response_r2 pending_r1 = Done tt pending_r1
  /\ JsonTcpClient.dispatch (JStr (T "shutdown")) pending_r1 = Done tt pending_r1.
Proof.
split.
- apply (unregistered_response_ignored response_r2 pending_r1).
  vm_compute; reflexivity.
- apply (unregistered_response_ignored (JStr (T "shutdown")) pending_r1).
  exact I.
Defined.

(** C10 on a freshly constructed client. *)
Lemma close_never_started_witness :
  JsonTcpClient.close fresh = Done tt (with_trace [SocketClose] fresh).
Proof.
exact (close_never_started fresh eq_refl eq_refl).
Defined.

(** X3 on the request [request_work] makes for [echo], sent by the
    connected client and read by a fresh one. *)
Lemma sent_message_is_decoded_witness :
  exists data w' peer',
    JsonTcpClient.send request_r1 connected = Done tt w'
    /\ written (trace w') = written (trace connected) ++ data
    /\ receive data fresh = Some peer'
    /\ decoded (trace peer') = [request_r1]
    /\ tracebacks (trace peer') = []
    /\ at_frame_boundary peer'.
Proof.
destruct (sent_message_is_decoded request_r1
            (map Byte.to_N (J "{'request_id': 'r1', 'worker': 'workers.echo', 'data': 1}"))
            (J "{'request_id': 'r1', 'worker': 'workers.echo', 'data': 1}")
            connected fresh)
  as (data & w' & peer' & H1 & H2 & H3 & H4 & H5).
- vm_compute; reflexivity.
- vm_compute; reflexivity.
- vm_compute; reflexivity.
- vm_compute; reflexivity.
- discriminate.
- vm_compute; reflexivity.
- repeat split; reflexivity.
- destruct H5 as [H5 H6]; [vm_compute; exact I|].
  exists data, w', peer'.
  exact (conj H1 (conj H2 (conj H3 (conj H4 (conj H5 H6))))).
Defined.


(** X5 on the frame of ["a"], its payload cut after two bytes, with a
    whole frame coming later. *)
Lemma payload_in_two_reads_never_decoded_witness :
  exists w1 w2,
    receive_all [[x03; x00; x00; x00] ++ J "'a"; J "'"] fresh = Some w1
    /\ trace w1 = []
    /\ _data_buf (self w1) = J "'a'"
    /\ receive_all [frame_a] w1 = Some w2
    /\ decoded (trace w2) = []
    /\ calls (trace w2) = [].
Proof.
destruct (payload_in_two_reads_never_decoded
            [x03; x00; x00; x00] (J "'a") (J "'") [frame_a] fresh)
  as (w1 & w2 & H1 & H2 & H3 & _ & H4 & H5 & H6 & _).
- repeat split; reflexivity.
- vm_compute; reflexivity.
- discriminate.
- discriminate.
- exists w1, w2. exact (conj H1 (conj H2 (conj H3 (conj H4 (conj H5 H6))))).
Defined.

(** X6 on the frame of ["a"]: header and payload in a read each. *)
Lemma header_and_payload_apart_witness :
  receive_all [[x03; x00; x00; x00]; J "'a'"] fresh = receive frame_a fresh.
Proof.
apply (header_and_payload_apart (J "'a'") [x03; x00; x00; x00] fresh).
- repeat split; reflexivity.
- vm_compute; reflexivity.
- discriminate.
Defined.

(** X7 on the frame of ["a"] cut after its first byte, with a whole
    frame coming later: all fourteen bytes end in the header buffer. *)
Lemma split_header_swallows_input_witness :
  exists w',
    receive_all [[x03]; [x00; x00; x00] ++ J "'a'"; frame_a] fresh = Some w'
    /\ trace w' = []
    /\ _header_complete (self w') = false
    /\ _header_buf (self w') = frame_a ++ frame_a.
Proof.
destruct (split_header_swallows_input [x03] ([x00; x00; x00] ++ J "'a'") [frame_a] fresh)
  as (w' & H1 & H2 & H3 & H4 & _).
- repeat split; reflexivity.
- vm_compute; lia.
- vm_compute; lia.
- exists w'. exact (conj H1 (conj H2 (conj H3 H4))).
Defined.

(** X8 on an empty frame followed by two reads of a good frame each. *)
Lemma empty_payload_blocks_witness :
  exists w1 w2,
    receive frame_empty fresh = Some w1
    /\ trace w1 = []
    /\ receive_all [frame_a; frame_a] w1 = Some w2
    /\ decoded (trace w2) = []
    /\ calls (trace w2) = []
    /\ tracebacks (trace w2) = [ValueError; ValueError]
    /\ socket w2 = frame_a ++ frame_a.
Proof.
apply (empty_payload_blocks frame_empty [] [frame_a; frame_a] fresh).
- repeat split; reflexivity.
- vm_compute; reflexivity.
- reflexivity.
- vm_compute; reflexivity.
- repeat constructor; discriminate.
Defined.

(** X9 on a fresh client started with one argument of the caller's. *)
Lemma start_then_connect_witness :
  exists w1 w2 w3,
    JsonTcpClient.start (T "/srv/server.py") None (Some [T "--debug"]) 50000 fresh
      = Done tt w1
    /\ trace w1 = [Log pyqode_client DEBUG MsgRunningWithPython;
                   NewServerProcess; PickFreePort 50000;
                   ProcessStart (T "/usr/bin/python")
                     [T "/srv/server.py"; T "50000"; T "--debug"];
                   Log pyqode_client DEBUG
                     (MsgStartingServerProcess (T "/usr/bin/python")
                        [T "/srv/server.py"; T "50000"; T "--debug"])]
    /\ process_started w1 = Some w2
    /\ fire_timer w2 = Some w3
    /\ waits (trace w3) = [100]
    /\ last (trace w3) = Some (ConnectToHost (T "127.0.0.1") 50000).
Proof.
destruct (start_then_connect (T "/srv/server.py") None (Some [T "--debug"]) 50000 fresh)
  as (program & pgm_args & w1 & w2 & w3 & H1 & H2 & -> & -> & _ & H3 & H4 & H5 & _ & H6).
- vm_compute; reflexivity.
- reflexivity.
- exists w1, w2, w3. exact (conj H1 (conj H2 (conj H3 (conj H4 (conj H5 H6))))).
Defined.

(** X10 on the client whose hundred attempts were refused, started
    again with the refusals going on. *)
Lemma restart_after_exhaustion_witness :
  exists w1 w2 w3,
    JsonTcpClient.start (T "/srv/server.py") None None 50001 exhausted = Done tt w1
    /\ process_started w1 = Some w2
    /\ refuse_connections 6 w2 = Some w3
    /\ attempts (trace w3) = S (attempts (trace exhausted))
    /\ tracebacks (trace w3) = tracebacks (trace exhausted) ++ [RuntimeError]
    /\ timers w3 = [].
Proof.
destruct (restart_after_exhaustion (T "/srv/server.py") None None 50001 5 exhausted)
  as (w1 & w2 & w3 & H1 & _ & H2 & H3 & H4 & H5 & H6).
- vm_compute; reflexivity.
- vm_compute; reflexivity.
- vm_compute; discriminate.
- exists w1, w2, w3. exact (conj H1 (conj H2 (conj H3 (conj H4 (conj H5 H6))))).
Defined.

(** X11 on the connected client. *)
Lemma close_shuts_down_witness :
  exists w' w'',
    JsonTcpClient.close connected = Done tt w'
    /\ actions (trace w') =
         actions (trace connected)
         ++ [SocketWrite [x0a; x00; x00; x00]; SocketWrite (J "'shutdown'");
             SocketClose; ProcessTerminate; ProcessWaitForFinished]
    /\ is_connected (self w') = false
    /\ JsonTcpClient.request_work echo (JInt 1) (Some 7%N) (T "r1") w'
       = Raised NotConnectedError w'
    /\ JsonTcpClient.close w' = Done tt w''
    /\ actions (trace w'') = actions (trace w') ++ [SocketClose].
Proof.
destruct (close_shuts_down (map Byte.to_N (J "'shutdown'")) (J "'shutdown'")
            [x0a; x00; x00; x00] {| running := true |}
            echo (JInt 1) (Some 7%N) (T "r1") connected)
  as (w' & w'' & H1 & H2 & H3 & _ & _ & H4 & H5 & H6).
- reflexivity.
- reflexivity.
- reflexivity.
- vm_compute; reflexivity.
- vm_compute; reflexivity.
- vm_compute; reflexivity.
- exists w', w''. exact (conj H1 (conj H2 (conj H3 (conj H4 (conj H5 H6))))).
Defined.

(** X12 on the connected client, whose server exits with code [1]. *)
Lemma finished_process_is_left_alone_witness :
  exists w1 w2,
    run_slot (ServerProcess._on_process_finished 1) connected = Some w1
    /\ JsonTcpClient.request_work echo (JInt 1) (Some 7%N) (T "r1") w1
       = Raised NotConnectedError w1
    /\ JsonTcpClient.close w1 = Done tt w2
    /\ actions (trace w2) = actions (trace connected) ++ [SocketClose]
    /\ is_connected (self w2) = false
    /\ _process (self w2) = Some {| running := false |}
    /\ _callbacks (self w2) = _callbacks (self connected).
Proof.
exact (finished_process_is_left_alone 1 {| running := true |}
         echo (JInt 1) (Some 7%N) (T "r1") connected eq_refl).
Defined.

(** X13 on the connected client, whose connection is lost. *)
Lemma disconnected_client_closes_quietly_witness :
  exists w1 w2,
    run_slot JsonTcpClient._on_disconnected connected = Some w1
    /\ JsonTcpClient.request_work echo (JInt 1) (Some 7%N) (T "r1") w1
       = Raised NotConnectedError w1
    /\ JsonTcpClient.close w1 = Done tt w2
    /\ actions (trace w2) =
         actions (trace connected)
         ++ [SocketClose; ProcessTerminate; ProcessWaitForFinished]
    /\ _process (self w2) = Some {| running := false |}
    /\ is_connected (self w2) = false
    /\ _callbacks (self w2) = _callbacks (self connected).
Proof.
exact (disconnected_client_closes_quietly {| running := true |}
         echo (JInt 1) (Some 7%N) (T "r1") connected eq_refl eq_refl).
Defined.

(** X14 on a fresh client, for the error [0] (the process failed to
    start) and a process that finishes with the exit code [1]. *)
Lemma process_error_unreported_witness :
  exists w1 w2,
    JsonTcpClient.start (T "/srv/server.py") None None 50000 fresh = Done tt w1
    /\ ServerProcess._on_process_error 0 None w1 = Done tt w1
    /\ run_slot ServerProcess._on_process_started w1 = Some w2
    /\ _process (self w2) = Some {| running := true |}
    /\ (ServerProcess.terminate ;; ServerProcess._on_process_error 0 None) w2
       = ServerProcess.terminate w2
    /\ (ServerProcess._on_process_finished 1 ;; ServerProcess._on_process_error 0 None) w2
       = ServerProcess._on_process_finished 1 w2.
Proof.
apply (process_error_unreported (T "/srv/server.py") None None 50000 1 0 None fresh).
vm_compute; reflexivity.
Defined.

(** X15 on the text [abc] without a newline: [ab] is logged. *)
Lemma output_without_newline_witness :
  process_prints (B "abc") fresh =
    Some (with_trace [Log pyqode_server DEBUG (MsgLine (T "ab"))] fresh)
  /\ process_complains (B "abc") fresh =
    Some (with_trace [Log pyqode_server ERROR (MsgLine (T "ab"))] fresh).
Proof.
apply (output_without_newline (B "abc") (T "abc") fresh).
- reflexivity.
- reflexivity.
- vm_compute; reflexivity.
- apply (bool_decide_unpack _). vm_compute. exact I.
Defined.

(** X16 on the requests [r1] and [r2], answered in the reverse order. *)
Lemma responses_matched_by_id_witness :
  exists w',
    receive (frame_r2 ++ frame_r1) pending_r1_r2 = Some w'
    /\ calls (trace w') =
         calls (trace pending_r1_r2)
         ++ [(8%N, JBool true, JNull); (7%N, JBool true, JList [JInt 1; JInt 2])]
    /\ _callbacks (self w') =
         delete (T "r1") (delete (T "r2") (_callbacks (self pending_r1_r2)))
    /\ at_frame_boundary w'.
Proof.
apply (responses_matched_by_id
         response_r1 frame_r1 (map Byte.to_N response_r1)
         (JDict [(T "request_id", JStr (T "r1")); (T "status", JBool true);
                 (T "results", JList [JInt 1; JInt 2])])
         (T "r1") (JList [JInt 1; JInt 2]) (JBool true) 7%N
         reply_r2 frame_r2 (map Byte.to_N reply_r2)
         (JDict [(T "request_id", JStr (T "r2")); (T "status", JBool true);
                 (T "results", JNull)])
         (T "r2") JNull (JBool true) 8%N pending_r1_r2).
- repeat split; reflexivity.
- discriminate.
- vm_compute; reflexivity.
- vm_compute; reflexivity.
- vm_compute; reflexivity.
- discriminate.
- vm_compute; reflexivity.
- vm_compute; reflexivity.
- vm_compute; reflexivity.
- vm_compute; reflexivity.
- discriminate.
- vm_compute; reflexivity.
- vm_compute; reflexivity.
- vm_compute; reflexivity.
Defined.

(** X17 on a response whose identifier is the list [[1]], with the
    request [r1] pending and a response to it in the same read. *)
Lemma unhashable_request_id_wedges_witness :
  exists w1 w2,
    receive (frame_listed ++ frame_r1) pending_r1 = Some w1
    /\ tracebacks (trace w1) = [TypeError]
    /\ socket w1 = frame_r1
    /\ receive_all [frame_r1] w1 = Some w2
    /\ calls (trace w2) = calls (trace pending_r1)
    /\ _callbacks (self w1) = _callbacks (self pending_r1).
Proof.
destruct (unhashable_request_id_wedges reply_listed frame_listed frame_r1 [frame_r1]
            (map Byte.to_N reply_listed)
            (JDict [(T "request_id", JList [JInt 1]); (T "status", JBool true);
                    (T "results", JNull)])
            (JList [JInt 1]) JNull (JBool true) pending_r1)
  as (w1 & w2 & H1 & H2 & H3 & H4 & H5 & _ & H6 & _).
- repeat split; reflexivity.
- vm_compute; reflexivity.
- discriminate.
- vm_compute; reflexivity.
- vm_compute; reflexivity.
- vm_compute; reflexivity.
- exact I.
- exists w1, w2. split; [exact H1|]. split.
  + rewrite H2, tracebacks_app. vm_compute. reflexivity.
  + exact (conj H4 (conj H5 (conj H6 H3))).
Defined.

